(** * get_prices.py: price resolution and portfolio valuation

    A shallow embedding of [src/get_prices.py]: the four exchange clients
    of [PriceAPI], the fallback chain [get_first_valid_price], the reader
    of the holdings [load_holdings] and the report builder
    [calculate_portfolio] of [PortfolioManager].

    Python values are modelled as follows.
    - [float] is IEEE binary64, taken from the Standard Library's
      [SpecFloat] with precision 53 and maximal exponent 1024; [+], [*]
      and the comparisons are the correctly rounded operations.
    - [str] is [string]; [lower] and [upper] act on the ASCII letters (the
      model covers ASCII text, where it agrees with Python).
    - The objects [response.json()] produces are the values of [pyval].
    - Exceptions are values of [exn]; a method is a function from the
      state of the world to an outcome ([Ok] or [Raise]) and a new world.
      The world records the URLs requested so far and the lines printed.
    - What the interpreter and the libraries provide (the HTTP transport,
      [float] on a string, [str] on an object) is a [PyRuntime]. *)

From Stdlib Require Import ZArith List String Ascii Bool Lia QArith.
From Stdlib Require Import SpecFloat Permutation Sorted.
Import ListNotations.

#[local] Set Warnings "-register-all".

Local Open Scope list_scope.
Local Open Scope string_scope.

(** ** Strings *)

Module Str.

Definition is_upper (c : ascii) : bool :=
  let n := nat_of_ascii c in (65 <=? n)%nat && (n <=? 90)%nat.

Definition is_lower (c : ascii) : bool :=
  let n := nat_of_ascii c in (97 <=? n)%nat && (n <=? 122)%nat.

Definition lower_char (c : ascii) : ascii :=
  if is_upper c then ascii_of_nat (nat_of_ascii c + 32) else c.

Definition upper_char (c : ascii) : ascii :=
  if is_lower c then ascii_of_nat (nat_of_ascii c - 32) else c.

(** [s.lower()] *)
Fixpoint lower (s : string) : string :=
  match s with
  | EmptyString => EmptyString
  | String c rest => String (lower_char c) (lower rest)
  end.

(** [s.upper()] *)
Fixpoint upper (s : string) : string :=
  match s with
  | EmptyString => EmptyString
  | String c rest => String (upper_char c) (upper rest)
  end.

(** [s.startswith(p)] *)
Definition startswith (s p : string) : bool := String.prefix p s.

(** [s.split(sep)] for a separator of one character: the result is never
    empty, and an empty piece stands between two adjacent separators. *)
Fixpoint split (sep : ascii) (s : string) : list string :=
  match s with
  | EmptyString => [EmptyString]
  | String c rest =>
      if Ascii.eqb c sep then EmptyString :: split sep rest
      else match split sep rest with
           | piece :: pieces => String c piece :: pieces
           | [] => [String c EmptyString]
           end
  end.

(** The text of [s] before its first [sep] (all of [s] when it has none). *)
Fixpoint until (sep : ascii) (s : string) : string :=
  match s with
  | EmptyString => EmptyString
  | String c rest =>
      if Ascii.eqb c sep then EmptyString else String c (until sep rest)
  end.

(** The text of [s] after its first [sep] ([None] when it has none). *)
Fixpoint after (sep : ascii) (s : string) : option string :=
  match s with
  | EmptyString => None
  | String c rest => if Ascii.eqb c sep then Some rest else after sep rest
  end.

End Str.

(** ** Floats: IEEE binary64 *)

Module Float.

Definition float : Type := spec_float.

Definition prec : Z := 53.
Definition emax : Z := 1024.

Definition add : float -> float -> float := SFadd prec emax.
Definition mul : float -> float -> float := SFmul prec emax.
Definition ltb : float -> float -> bool := SFltb.
Definition leb : float -> float -> bool := SFleb.

(** [x > y] and [x >= y] *)
Definition gtb (x y : float) : bool := ltb y x.
Definition geb (x y : float) : bool := leb y x.

Definition zero : float := S754_zero false.
Definition one : float := S754_finite false 4503599627370496 (-52).
Definition nan : float := S754_nan.

Definition is_nan (x : float) : bool :=
  match x with S754_nan => true | _ => false end.

Definition is_finite (x : float) : bool :=
  match x with S754_zero _ | S754_finite _ _ _ => true | _ => false end.

(** The integer [z] rounded to the nearest float, ties to even. *)
Definition of_Z (z : Z) : float := binary_normalize prec emax z 0 false.


End Float.

(** ** Python objects and exceptions *)

(** What [response.json()] can produce. A dict is kept as the list of its
    items; a lookup takes the first item with the key. *)
Inductive pyval : Type :=
| PyNone
| PyBool (b : bool)
| PyInt (z : Z)
| PyFloat (f : Float.float)
| PyStr (s : string)
| PyList (items : list pyval)
| PyDict (items : list (string * pyval)).

Inductive exn : Type :=
| ValueError | TypeError | KeyError | AttributeError | IndexError
| OverflowError.

Inductive outcome (A : Type) : Type :=
| Ok (a : A)
| Raise (e : exn).

Arguments Ok {A} a.
Arguments Raise {A} e.

Definition exn_eqb (a b : exn) : bool :=
  match a, b with
  | ValueError, ValueError | TypeError, TypeError | KeyError, KeyError
  | AttributeError, AttributeError | IndexError, IndexError
  | OverflowError, OverflowError => true
  | _, _ => false
  end.

(** Code that may raise but touches nothing else. *)
Module Exc.

Definition bind {A B} (c : outcome A) (k : A -> outcome B) : outcome B :=
  match c with
  | Ok a => k a
  | Raise e => Raise e
  end.

(** [try: body  except (e1, ..., en): handler] *)
Definition try_except {A} (body : outcome A) (caught : list exn)
    (handler : outcome A) : outcome A :=
  match body with
  | Ok a => Ok a
  | Raise e => if existsb (exn_eqb e) caught then handler else Raise e
  end.

End Exc.

Declare Scope exc_scope.
Delimit Scope exc_scope with exc.
Notation "x <- c ;; k" := (Exc.bind c (fun x => k))
  (at level 61, c at next level, right associativity) : exc_scope.

(** The world a method runs in: the URLs requested so far, oldest first,
    and the lines printed so far. *)
Record world : Type := World {
  requested : list string;
  printed : list string
}.

(** Code that may raise, request a URL or print. *)
Definition M (A : Type) : Type := world -> outcome A * world.

Module IO.

Definition ret {A} (a : A) : M A := fun w => (Ok a, w).

Definition bind {A B} (c : M A) (k : A -> M B) : M B :=
  fun w =>
    match c w with
    | (Ok a, w') => k a w'
    | (Raise e, w') => (Raise e, w')
    end.

Definition lift {A} (c : outcome A) : M A := fun w => (c, w).

(** [print(line)] *)
Definition print (line : string) : M unit :=
  fun w => (Ok tt, World (requested w) (printed w ++ [line])%list).

End IO.

Declare Scope io_scope.
Delimit Scope io_scope with io.
Notation "x <- c ;; k" := (IO.bind c (fun x => k))
  (at level 61, c at next level, right associativity) : io_scope.

(** What [requests.get(url)], [raise_for_status()] and [json()] come to:
    a [RequestException] with its message, or the decoded body. *)
Inductive http_response : Type :=
| RequestException (message : string)
| Body (json : pyval).

(** The interpreter and the libraries the program runs on. The answer of
    the transport may depend on the requests made before. *)
Class PyRuntime : Type := {
  requests_get : list string -> string -> http_response;
  (** [float(s)] on a [str]: [None] stands for [ValueError] *)
  float_of_str : string -> option Float.float;
  (** [str(v)], as an f-string formats [v] *)
  str_of : pyval -> string
}.

(** *** Built-in operations on objects *)

Module Py.

Fixpoint lookup {V} (items : list (string * V)) (key : string) : option V :=
  match items with
  | [] => None
  | (k, v) :: rest => if String.eqb k key then Some v else lookup rest key
  end.

(** [bool(v)] *)
Definition truthy (v : pyval) : bool :=
  match v with
  | PyNone => false
  | PyBool b => b
  | PyInt z => negb (Z.eqb z 0)
  | PyFloat f => match f with S754_zero _ => false | _ => true end
  | PyStr s => match s with EmptyString => false | _ => true end
  | PyList items => match items with [] => false | _ => true end
  | PyDict items => match items with [] => false | _ => true end
  end.

(** [len(v)] *)
Definition len (v : pyval) : outcome nat :=
  match v with
  | PyStr s => Ok (String.length s)
  | PyList items => Ok (List.length items)
  | PyDict items => Ok (List.length items)
  | _ => Raise TypeError
  end.

(** [v[0]]: a dict decoded from JSON has only [str] keys, so the key [0]
    is never one of them. *)
Definition item0 (v : pyval) : outcome pyval :=
  match v with
  | PyList items =>
      match items with
      | x :: _ => Ok x
      | [] => Raise IndexError
      end
  | PyDict _ => Raise KeyError
  | PyStr s =>
      match s with
      | String c _ => Ok (PyStr (String c EmptyString))
      | EmptyString => Raise IndexError
      end
  | _ => Raise TypeError
  end.

(** [v[key]] for a [str] key *)
Definition item (v : pyval) (key : string) : outcome pyval :=
  match v with
  | PyDict items =>
      match lookup items key with
      | Some x => Ok x
      | None => Raise KeyError
      end
  | _ => Raise TypeError
  end.

(** [v.get(key, default)]: only a dict has the method. *)
Definition get (v : pyval) (key : string) (default : pyval) : outcome pyval :=
  match v with
  | PyDict items =>
      match lookup items key with
      | Some x => Ok x
      | None => Ok default
      end
  | _ => Raise AttributeError
  end.

(** [v == s] for a [str] literal [s] *)
Definition eq_str (v : pyval) (s : string) : bool :=
  match v with
  | PyStr t => String.eqb t s
  | _ => false
  end.

(** [float(v)] *)
Definition to_float `{PyRuntime} (v : pyval) : outcome Float.float :=
  match v with
  | PyFloat f => Ok f
  | PyInt z =>
      let f := Float.of_Z z in
      if Float.is_finite f then Ok f else Raise OverflowError
  | PyBool b => Ok (if b then Float.one else Float.zero)
  | PyStr s =>
      match float_of_str s with
      | Some f => Ok f
      | None => Raise ValueError
      end
  | PyNone | PyList _ | PyDict _ => Raise TypeError
  end.

End Py.

(** ** The data classes *)

Record ExchangePrice : Type := mkExchangePrice {
  exchange : string;
  price : Float.float;
  error : option string
}.

(** The property [is_error]: [self.error is not None] *)
Definition is_error (q : ExchangePrice) : bool :=
  match error q with
  | Some _ => true
  | None => false
  end.

Record CryptoHolding : Type := mkCryptoHolding {
  symbol : string;
  amount : Float.float
}.

(** ** PriceAPI *)

Module PriceAPI.
Section WithRuntime.

Context `{PyRuntime}.

Local Open Scope io_scope.

Definition token_map : list (string * string) :=
  [ ("btc", "bitcoin");
    ("eth", "ethereum");
    ("sol", "solana");
    ("xrp", "ripple");
    ("ada", "cardano");
    ("doge", "dogecoin");
    ("link", "chainlink");
    ("uni", "uniswap");
    ("ai16z", "ai16z");
    ("virtual", "virtual-protocol");
    ("sui", "sui");
    ("fet", "fetch-ai");
    ("usdc", "usd-coin");
    ("usdt", "tether") ].

(** [_make_request]: the decoded body, or the [str] ["Error: ..."] when
    the transport raises a [RequestException]. *)
Definition _make_request (url : string) : M pyval :=
  fun w =>
    let w' := World (requested w ++ [url])%list (printed w) in
    match requests_get (requested w) url with
    | Body json => (Ok json, w')
    | RequestException message => (Ok (PyStr ("Error: " ++ message)), w')
    end.

Definition invalid_price : list exn := [ValueError; TypeError].

Definition get_upbit_price (coin : string) : M ExchangePrice :=
  if String.eqb (Str.lower coin) "krw" then
    IO.ret (mkExchangePrice "Upbit" Float.one None)
  else
    let url := "https://api.upbit.com/v1/ticker?markets=KRW-" ++ Str.upper coin in
    data <- _make_request url ;;
    match data with
    | PyStr message => IO.ret (mkExchangePrice "Upbit" Float.zero (Some message))
    | _ =>
        nonempty <- IO.lift (if Py.truthy data
                             then (n <- Py.len data ;; Ok (0 <? n)%nat)%exc
                             else Ok false) ;;
        if nonempty then
          IO.lift
            (Exc.try_except
               (first <- Py.item0 data ;;
                field <- Py.get first "trade_price" (PyInt 0) ;;
                value <- Py.to_float field ;;
                Ok (mkExchangePrice "Upbit" value None))%exc
               invalid_price
               (Ok (mkExchangePrice "Upbit" Float.zero
                      (Some "Error: Invalid price data"))))
        else
          IO.ret (mkExchangePrice "Upbit" Float.zero
                    (Some "Error: Empty response from API"))
    end.

Definition get_bithumb_price (coin : string) : M ExchangePrice :=
  if String.eqb (Str.lower coin) "krw" then
    IO.ret (mkExchangePrice "Bithumb" Float.one None)
  else
    let url := "https://api.bithumb.com/public/ticker/" ++ coin ++ "_KRW" in
    data <- _make_request url ;;
    match data with
    | PyStr message => IO.ret (mkExchangePrice "Bithumb" Float.zero (Some message))
    | _ =>
        status <- IO.lift (Py.get data "status" PyNone) ;;
        if Py.eq_str status "0000" then
          IO.lift
            (Exc.try_except
               (inner <- Py.item data "data" ;;
                field <- Py.get inner "closing_price" (PyInt 0) ;;
                value <- Py.to_float field ;;
                Ok (mkExchangePrice "Bithumb" value None))%exc
               invalid_price
               (Ok (mkExchangePrice "Bithumb" Float.zero
                      (Some "Error: Invalid price data"))))
        else
          status' <- IO.lift (Py.get data "status" PyNone) ;;
          IO.ret (mkExchangePrice "Bithumb" Float.zero
                    (Some ("Error: API returned status " ++ str_of status')))
    end.

Definition get_coinone_price (coin : string) : M ExchangePrice :=
  if String.eqb (Str.lower coin) "krw" then
    IO.ret (mkExchangePrice "Coinone" Float.one None)
  else
    let url := "https://api.coinone.co.kr/ticker/?currency=" ++ coin in
    data <- _make_request url ;;
    match data with
    | PyStr message => IO.ret (mkExchangePrice "Coinone" Float.zero (Some message))
    | _ =>
        code <- IO.lift (Py.get data "errorCode" PyNone) ;;
        if Py.eq_str code "0" then
          IO.lift
            (Exc.try_except
               (field <- Py.get data "last" (PyInt 0) ;;
                value <- Py.to_float field ;;
                Ok (mkExchangePrice "Coinone" value None))%exc
               invalid_price
               (Ok (mkExchangePrice "Coinone" Float.zero
                      (Some "Error: Invalid price data"))))
        else
          code' <- IO.lift (Py.get data "errorCode" PyNone) ;;
          IO.ret (mkExchangePrice "Coinone" Float.zero
                    (Some ("Error: API returned errorCode " ++ str_of code')))
    end.

(** [self.token_map.get(coin.lower(), coin.lower())] *)
Definition token_id_of (coin : string) : string :=
  match Py.lookup token_map (Str.lower coin) with
  | Some id => id
  | None => Str.lower coin
  end.

Definition get_coingecko_price (coin : string) : M ExchangePrice :=
  if String.eqb (Str.lower coin) "krw" then
    IO.ret (mkExchangePrice "Coingecko" Float.one None)
  else
    let token_id := token_id_of coin in
    let url := "https://api.coingecko.com/api/v3/simple/price?ids="
               ++ token_id ++ "&vs_currencies=krw" in
    data <- _make_request url ;;
    match data with
    | PyStr message => IO.ret (mkExchangePrice "Coingecko" Float.zero (Some message))
    | _ =>
        IO.lift
          (Exc.try_except
             (entry <- Py.get data token_id (PyDict []) ;;
              field <- Py.get entry "krw" (PyInt 0) ;;
              value <- Py.to_float field ;;
              Ok (mkExchangePrice "Coingecko" value None))%exc
             invalid_price
             (Ok (mkExchangePrice "Coingecko" Float.zero
                    (Some ("Error: Unable to get price for " ++ coin)))))
    end.

End WithRuntime.
End PriceAPI.

(** ** The report *)

(** A row of the report, one field per column; [None] is [pd.NA]. *)
Record Row : Type := mkRow {
  Time : string;
  Symbol : string;
  Amount : option Float.float;
  Price_KRW : option Float.float;
  Exchange : option string;
  Total_Value_KRW : Float.float
}.

(** What the program uses of pandas. A frame built from a list of dicts
    is the list of its rows; built from the empty list it has no column.

    [sort_values(by=..., ascending=False)] orders the rows whose key is
    not NaN by decreasing key and puts the rows whose key is NaN after
    them, in the order they had. pandas obtains the decreasing order by
    reversing, sorting in increasing order and reversing again; the
    increasing sort is an insertion sort here. pandas leaves the order
    among equal keys to the sorting algorithm, and nothing below depends
    on it. *)
Module Pandas.

Definition key (r : Row) : Float.float := Total_Value_KRW r.

Fixpoint insert (r : Row) (sorted : list Row) : list Row :=
  match sorted with
  | [] => [r]
  | r' :: rest =>
      if Float.leb (key r) (key r') then r :: sorted
      else r' :: insert r rest
  end.

Fixpoint argsort (rows : list Row) : list Row :=
  match rows with
  | [] => []
  | r :: rest => insert r (argsort rest)
  end.

Definition non_nans (rows : list Row) : list Row :=
  filter (fun r => negb (Float.is_nan (key r))) rows.

Definition nans (rows : list Row) : list Row :=
  filter (fun r => Float.is_nan (key r)) rows.

Definition nargsort_descending (rows : list Row) : list Row :=
  (rev (argsort (rev (non_nans rows))) ++ nans rows)%list.

(** [df.sort_values(by="Total Value (KRW)", ascending=False)]: a frame
    without rows has no such column, and the lookup of the column raises
    [KeyError]. *)
Definition sort_values_descending (df : list Row) : outcome (list Row) :=
  match df with
  | [] => Raise KeyError
  | _ => Ok (nargsort_descending df)
  end.

(** [pd.concat([df, other], ignore_index=True)] *)
Definition concat (df other : list Row) : list Row := (df ++ other)%list.

End Pandas.

(** ** PortfolioManager *)

Module PortfolioManager.
Section WithRuntime.

Context `{PyRuntime}.

Local Open Scope io_scope.

(** [xs[i]] *)
Definition index {A} (xs : list A) (i : nat) : outcome A :=
  match nth_error xs i with
  | Some x => Ok x
  | None => Raise IndexError
  end.

(** The body of the loop of [load_holdings], over the items of
    [os.environ] that are left; [holdings] is [self.holdings]. *)
Fixpoint load_holdings_loop (environ : list (string * string))
    (holdings : list CryptoHolding) : M (list CryptoHolding) :=
  match environ with
  | [] => IO.ret holdings
  | (key, value) :: rest =>
      if Str.startswith key "CRYPTO_" then
        symbol <- IO.lift (piece <- index (Str.split "_" key) 1 ;;
                           Ok (Str.lower piece))%exc ;;
        parsed <- IO.lift
                    (Exc.try_except
                       (amount <- Py.to_float (PyStr value) ;; Ok (Some amount))%exc
                       [ValueError]
                       (Ok None)) ;;
        match parsed with
        | Some amount =>
            load_holdings_loop rest
              (holdings ++ [mkCryptoHolding symbol amount])%list
        | None =>
            _ <- IO.print ("Warning: Invalid amount for " ++ symbol
                           ++ ": " ++ value) ;;
            load_holdings_loop rest holdings
        end
      else load_holdings_loop rest holdings
  end.

(** [load_holdings], given the items of [os.environ] once [load_dotenv]
    has run; the result is the new [self.holdings]. *)
Definition load_holdings (environ : list (string * string))
    : M (list CryptoHolding) :=
  load_holdings_loop environ [].

Definition exchanges : list ((string -> M ExchangePrice) * string) :=
  [ (PriceAPI.get_upbit_price, "Upbit");
    (PriceAPI.get_bithumb_price, "Bithumb");
    (PriceAPI.get_coinone_price, "Coinone");
    (PriceAPI.get_coingecko_price, "Coingecko") ].

(** The loop of [get_first_valid_price] over the exchanges left. *)
Fixpoint first_valid_price (left : list ((string -> M ExchangePrice) * string))
    (symbol : string) : M (Float.float * string) :=
  match left with
  | [] => IO.ret (Float.zero, "No valid price found")
  | (get_price, exchange_name) :: rest =>
      result <- get_price symbol ;;
      if negb (is_error result) && Float.gtb (price result) Float.zero
      then IO.ret (price result, exchange_name)
      else first_valid_price rest symbol
  end.

Definition get_first_valid_price (symbol : string) : M (Float.float * string) :=
  first_valid_price exchanges symbol.

(** The loop of [calculate_portfolio] over the holdings left. *)
Fixpoint portfolio_loop (current_time : string) (holdings : list CryptoHolding)
    (portfolio_data : list Row) (total_value : Float.float)
    : M (list Row * Float.float) :=
  match holdings with
  | [] => IO.ret (portfolio_data, total_value)
  | holding :: rest =>
      found <- get_first_valid_price (symbol holding) ;;
      let '(price, exchange) := found in
      let total_holding_value := Float.mul price (amount holding) in
      portfolio_loop current_time rest
        (portfolio_data ++
           [mkRow current_time (Str.upper (symbol holding))
              (Some (amount holding)) (Some price) (Some exchange)
              total_holding_value])%list
        (Float.add total_value total_holding_value)
  end.

Definition total_row (current_time : string) (total_value : Float.float) : Row :=
  mkRow current_time "TOTAL" None None None total_value.

(** [calculate_portfolio], given [datetime.now()] formatted and
    [self.holdings]; the result is the rows of the frame. *)
Definition calculate_portfolio (current_time : string)
    (holdings : list CryptoHolding) : M (list Row) :=
  collected <- portfolio_loop current_time holdings [] Float.zero ;;
  let '(portfolio_data, total_value) := collected in
  df <- IO.lift (Pandas.sort_values_descending portfolio_data) ;;
  IO.ret (Pandas.concat df [total_row current_time total_value]).

End WithRuntime.
End PortfolioManager.

(** ** A runtime to evaluate examples on

    The transport answers from a fixed table of bodies; [float] reads an
    optional sign followed by decimal digits, [nan] or [inf], which it
    converts as Python does, and refuses every other string, among them
    strings that Python accepts: it serves the examples below and no
    theorem about all runtimes. *)

Module Demo.

Fixpoint digits (s : string) (acc : Z) : option Z :=
  match s with
  | EmptyString => Some acc
  | String c rest =>
      let n := Z.of_nat (nat_of_ascii c) in
      if (48 <=? n)%Z && (n <=? 57)%Z then digits rest (10 * acc + (n - 48))
      else None
  end.

Definition unsigned (s : string) : option Float.float :=
  if String.eqb s "nan" then Some Float.nan
  else if String.eqb s "inf" then Some (S754_infinity false)
  else match s with
       | EmptyString => None
       | _ => option_map Float.of_Z (digits s 0)
       end.

Definition parse_float (s : string) : option Float.float :=
  match s with
  | String "-" rest => option_map SFopp (unsigned rest)
  | String "+" rest => unsigned rest
  | _ => unsigned s
  end.

Definition show (v : pyval) : string :=
  match v with
  | PyNone => "None"
  | PyStr s => s
  | PyBool true => "True"
  | PyBool false => "False"
  | _ => "..."
  end.

(** A transport that answers every request with the same body. *)
Definition always (json : pyval) : PyRuntime :=
  {| requests_get := fun _ _ => Body json;
     float_of_str := parse_float;
     str_of := show |}.

(** A transport that fails every request. *)
Definition offline : PyRuntime :=
  {| requests_get := fun _ _ => RequestException "Connection refused";
     float_of_str := parse_float;
     str_of := show |}.

(** A transport that answers from a table of bodies by URL and fails the
    requests of other URLs. *)
Definition table (bodies : list (string * pyval)) : PyRuntime :=
  {| requests_get := fun _ url =>
       match Py.lookup bodies url with
       | Some json => Body json
       | None => RequestException "Connection refused"
       end;
     float_of_str := parse_float;
     str_of := show |}.

Definition start : world := World [] [].

(** A holding of the quote currency. *)
Definition krw (amount : Float.float) : CryptoHolding :=
  mkCryptoHolding "krw" amount.

(** Only Bithumb answers, with a closing price. *)
Definition bithumb_only : PyRuntime :=
  table [ ("https://api.bithumb.com/public/ticker/btc_KRW",
           PyDict [ ("status", PyStr "0000");
                    ("data", PyDict [("closing_price", PyStr "50000000")]) ]) ].

(** Only Coingecko answers, with a price for bitcoin. *)
Definition coingecko_only : PyRuntime :=
  table [ ("https://api.coingecko.com/api/v3/simple/price?ids=bitcoin&vs_currencies=krw",
           PyDict [("bitcoin", PyDict [("krw", PyInt 50000000)])]) ].

End Demo.


(** ** The program

    [PortfolioManager()] and [main]. The display options [main] sets only
    affect how a frame is printed; [frame_str] stands for [str(df)] under
    them, and [print(df)] adds one entry to the printed lines. *)

Module Program.
Section WithRuntime.

Context `{PyRuntime}.
Variable frame_str : list Row -> string.

Local Open Scope io_scope.

(** [PortfolioManager.__init__]: the result is [self.holdings]. *)
Definition __init__ (environ : list (string * string))
    : M (list CryptoHolding) :=
  PortfolioManager.load_holdings environ.

(** [main], given the items of [os.environ] and [datetime.now()]
    formatted. *)
Definition main (environ : list (string * string)) (current_time : string)
    : M unit :=
  holdings <- __init__ environ ;;
  portfolio_df <- PortfolioManager.calculate_portfolio current_time holdings ;;
  _ <- IO.print "[ Cryptocurrency Portfolio ]" ;;
  IO.print (frame_str portfolio_df).

End WithRuntime.
End Program.
(** * The vocabulary of the statements *)

Local Open Scope list_scope.

Module Spec.
Section WithRuntime.

Context `{PyRuntime}.

(** A quote the resolver accepts: no error and a price above zero. *)
Definition usable (q : ExchangePrice) : Prop :=
  error q = None /\ Float.gtb (price q) Float.zero = true.

(** A quote that is erroneous or whose price is at most zero. *)
Definition unusable (q : ExchangePrice) : Prop :=
  is_error q = true \/ Float.leb (price q) Float.zero = true.

(** [probed symbol bad clients w w']: called one after the other from the
    world [w], every client of [clients] returns a quote, each of them
    [bad], and the last leaves the world [w']. *)
Inductive probed (symbol : string) (bad : ExchangePrice -> Prop)
  : list ((string -> M ExchangePrice) * string) -> world -> world -> Prop :=
| probed_nil w : probed symbol bad [] w w
| probed_cons get_price name rest q w w1 w2 :
    get_price symbol w = (Ok q, w1) ->
    bad q ->
    probed symbol bad rest w1 w2 ->
    probed symbol bad ((get_price, name) :: rest) w w2.

(** The message of a client for a price that does not convert. *)
Definition invalid_message (name coin : string) : string :=
  if String.eqb name "Coingecko"
  then ("Error: Unable to get price for " ++ coin)%string
  else "Error: Invalid price data".

(** [price_field coin name json field]: the body [json] has the shape the
    client [name] reads a price from, and [field] is the price found
    there, [None] when the body has the shape but not the price.
    - Upbit: a list whose first element is a dict; key [trade_price].
    - Bithumb: a dict with [status] equal to ["0000"] and a dict under
      [data]; key [closing_price] of the latter.
    - Coinone: a dict with [errorCode] equal to ["0"]; key [last].
    - Coingecko: a dict; under the identifier of the coin a dict, with key
      [krw]; the identifier itself may be missing. *)
Inductive price_field (coin : string) : string -> pyval -> option pyval -> Prop :=
| field_upbit first others :
    price_field coin "Upbit" (PyList (PyDict first :: others))
      (Py.lookup first "trade_price")
| field_bithumb body inner :
    Py.lookup body "status" = Some (PyStr "0000") ->
    Py.lookup body "data" = Some (PyDict inner) ->
    price_field coin "Bithumb" (PyDict body) (Py.lookup inner "closing_price")
| field_coinone body :
    Py.lookup body "errorCode" = Some (PyStr "0") ->
    price_field coin "Coinone" (PyDict body) (Py.lookup body "last")
| field_coingecko body inner :
    Py.lookup body (PriceAPI.token_id_of coin) = Some (PyDict inner) ->
    price_field coin "Coingecko" (PyDict body) (Py.lookup inner "krw")
| field_coingecko_unlisted body :
    Py.lookup body (PriceAPI.token_id_of coin) = None ->
    price_field coin "Coingecko" (PyDict body) None.

(** What a client makes of the price field: a missing field counts as 0;
    [ValueError] and [TypeError] of the conversion become the client's
    message, another exception goes through. *)
Definition quote_of_field (name coin : string) (field : option pyval)
    : outcome ExchangePrice :=
  match field with
  | None => Ok (mkExchangePrice name Float.zero None)
  | Some v =>
      match Py.to_float v with
      | Ok value => Ok (mkExchangePrice name value None)
      | Raise ValueError | Raise TypeError =>
          Ok (mkExchangePrice name Float.zero (Some (invalid_message name coin)))
      | Raise e => Raise e
      end
  end.

(** The invariant of a quote as the specification words it: a price
    above zero and no error, or an error. *)
Definition quote_invariant (q : ExchangePrice) : Prop :=
  (Float.gtb (price q) Float.zero = true /\ error q = None)
  \/ error q <> None.

(** A failure captured in a quote: the price 0.0 and an error message. *)
Definition failure_quote (q : ExchangePrice) : Prop :=
  price q = Float.zero /\ exists message, error q = Some message.

(** *** The holdings *)

(** The text of [key] between its first and its second underscore, up to
    the end of [key] when it has one underscore only. *)
Definition between_underscores (key : string) : string :=
  match Str.after "_" key with
  | Some rest => Str.until "_" rest
  | None => EmptyString
  end.

(** The holdings the environment holds: one for every variable whose name
    starts with [CRYPTO_] and whose value [float] accepts, in the order of
    the environment. *)
Fixpoint loaded (environ : list (string * string)) : list CryptoHolding :=
  match environ with
  | [] => []
  | (key, value) :: rest =>
      if Str.startswith key "CRYPTO_" then
        match float_of_str value with
        | Some amount =>
            mkCryptoHolding (Str.lower (between_underscores key)) amount
            :: loaded rest
        | None => loaded rest
        end
      else loaded rest
  end.

(** The warnings: one for every variable whose name starts with [CRYPTO_]
    and whose value [float] refuses. *)
Fixpoint warnings (environ : list (string * string)) : list string :=
  match environ with
  | [] => []
  | (key, value) :: rest =>
      if Str.startswith key "CRYPTO_" then
        match float_of_str value with
        | Some _ => warnings rest
        | None =>
            ("Warning: Invalid amount for "
             ++ Str.lower (between_underscores key) ++ ": " ++ value)%string
            :: warnings rest
        end
      else warnings rest
  end.

(** An amount that is a decimal number, positive or zero. *)
Definition nonnegative_decimal (x : Float.float) : Prop :=
  Float.is_finite x = true /\ Float.leb Float.zero x = true.

(** *** The report *)

(** The resolutions of all the holdings, one after the other. *)
Fixpoint resolve_all (holdings : list CryptoHolding)
    : M (list (Float.float * string)) :=
  match holdings with
  | [] => IO.ret []
  | holding :: rest =>
      IO.bind (PortfolioManager.get_first_valid_price (symbol holding))
        (fun found =>
           IO.bind (resolve_all rest) (fun others => IO.ret (found :: others)))
  end.

(** The row of a holding whose resolution gave [found]. *)
Definition holding_row (current_time : string) (holding : CryptoHolding)
    (found : Float.float * string) : Row :=
  mkRow current_time (Str.upper (symbol holding)) (Some (amount holding))
    (Some (fst found)) (Some (snd found))
    (Float.mul (fst found) (amount holding)).

(** The rows of the holdings, in the order of the holdings. *)
Fixpoint holding_rows (current_time : string) (holdings : list CryptoHolding)
    (founds : list (Float.float * string)) : list Row :=
  match holdings, founds with
  | holding :: holdings', found :: founds' =>
      holding_row current_time holding found
      :: holding_rows current_time holdings' founds'
  | _, _ => []
  end.

(** The values of [rows] added up in floats, from 0.0 and from the first
    row to the last. *)
Definition float_sum (rows : list Row) : Float.float :=
  fold_left Float.add (map Total_Value_KRW rows) Float.zero.


(** A row whose value is a number or an infinity. *)
Definition not_nan (r : Row) : Prop := Float.is_nan (Pandas.key r) = false.

(** The order of the increasing sort. *)
Definition le_key (a b : Row) : Prop :=
  Float.leb (Pandas.key a) (Pandas.key b) = true.

(** Any two rows next to each other have values in decreasing order. *)
Definition descending (rows : list Row) : Prop :=
  forall i a b,
    nth_error rows i = Some a ->
    nth_error rows (S i) = Some b ->
    Float.geb (Total_Value_KRW a) (Total_Value_KRW b) = true.


(** The report as the specification words it: rows by decreasing value,
    then the total row. *)
Definition sorted_then_total (report : list Row) : Prop :=
  exists rows total,
    report = rows ++ [total]
    /\ Symbol total = "TOTAL"
    /\ descending rows.

End WithRuntime.
End Spec.

(** ** Further vocabulary *)

Module Vocab.

(** The URL each client requests for [coin]. *)
Definition upbit_url (coin : string) : string :=
  ("https://api.upbit.com/v1/ticker?markets=KRW-" ++ Str.upper coin)%string.

Definition bithumb_url (coin : string) : string :=
  ("https://api.bithumb.com/public/ticker/" ++ coin ++ "_KRW")%string.

Definition coinone_url (coin : string) : string :=
  ("https://api.coinone.co.kr/ticker/?currency=" ++ coin)%string.

Definition coingecko_url (coin : string) : string :=
  ("https://api.coingecko.com/api/v3/simple/price?ids="
   ++ PriceAPI.token_id_of coin ++ "&vs_currencies=krw")%string.

(** The URLs of the four clients, in the order of the resolver, each with
    the name of its client. *)
Definition client_urls (coin : string) : list (string * string) :=
  [ ("Upbit", upbit_url coin);
    ("Bithumb", bithumb_url coin);
    ("Coinone", coinone_url coin);
    ("Coingecko", coingecko_url coin) ].

(** Every character of [s] passes [p]. *)
Fixpoint all_chars (p : ascii -> bool) (s : string) : bool :=
  match s with
  | EmptyString => true
  | String c rest => p c && all_chars p rest
  end.

(** A character of the ASCII range, on which [Str.lower] and [Str.upper]
    are Python's [lower] and [upper]. *)
Definition is_ascii (c : ascii) : bool := (nat_of_ascii c <? 128)%nat.

(** Neither an upper-case letter nor an underscore. *)
Definition symbol_char (c : ascii) : bool :=
  negb (Str.is_upper c) && negb (Ascii.eqb c "_").

(** The variables of the environment that [load_holdings] reads. *)
Definition crypto_vars (environ : list (string * string))
    : list (string * string) :=
  filter (fun kv => Str.startswith (fst kv) "CRYPTO_") environ.



End Vocab.
(** * Properties *)

(** ** Facts about the floats *)

Lemma compare_swap (x y : Float.float) :
  SFcompare y x = option_map CompOpp (SFcompare x y).
Proof.
  destruct x as [sx | sx | | sx mx ex], y as [sy | sy | | sy my ey];
    try reflexivity;
    try (destruct sx; reflexivity);
    try (destruct sy; reflexivity);
    try (destruct sx, sy; reflexivity).
  destruct sx, sy; simpl; try reflexivity;
    rewrite (Z.compare_antisym ex ey);
    destruct (ex ?= ey)%Z; simpl; try reflexivity;
    change (Pos.compare_cont Eq my mx) with (my ?= mx)%positive;
    change (Pos.compare_cont Eq mx my) with (mx ?= my)%positive;
    rewrite (Pos.compare_antisym mx my);
    destruct (mx ?= my)%positive; reflexivity.
Qed.

(** Two floats that are not NaN are comparable. *)
Lemma leb_total (x y : Float.float) :
  Float.is_nan x = false -> Float.is_nan y = false ->
  Float.leb x y = false -> Float.leb y x = true.
Proof.
  intros Hx Hy. unfold Float.leb, SFleb. rewrite (compare_swap x y).
  destruct (SFcompare x y) as [[ | | ] | ] eqn:E; simpl; try congruence.
  destruct x as [sx | sx | | sx mx ex], y as [sy | sy | | sy my ey];
    simpl in *; discriminate.
Qed.

(** A float that is [<= 0] is not [> 0]. *)
Lemma not_positive (x : Float.float) :
  Float.leb x Float.zero = true -> Float.gtb x Float.zero = false.
Proof.
  destruct x as [s | s | | s m e]; try destruct s; cbv; congruence.
Qed.

(** ** The exchange clients on the quote currency *)

Section Resolver.

Context `{PyRuntime}.

Import PortfolioManager.

(** C8. For every symbol equal to ["krw"] up to the case of its letters,
    each of the four exchange clients returns the price 1.0 with no error
    and leaves the world as it was: no URL is requested. *)
Theorem krw_is_pegged (get_price : string -> M ExchangePrice) (name coin : string)
    (w : world) :
  In (get_price, name) exchanges ->
  Str.lower coin = "krw" ->
  get_price coin w = (Ok (mkExchangePrice name Float.one None), w).
Proof.
  intros Hin Hkrw. simpl in Hin.
  destruct Hin as [E | [E | [E | [E | []]]]]; inversion E; subst; clear E.
  - unfold PriceAPI.get_upbit_price. now rewrite Hkrw.
  - unfold PriceAPI.get_bithumb_price. now rewrite Hkrw.
  - unfold PriceAPI.get_coinone_price. now rewrite Hkrw.
  - unfold PriceAPI.get_coingecko_price. now rewrite Hkrw.
Qed.

(** ** The fallback chain *)

Lemma first_valid_price_skips (symbol : string) before :
  forall rest w w1,
    Spec.probed symbol (fun q => ~ Spec.usable q) before w w1 ->
    first_valid_price (before ++ rest) symbol w = first_valid_price rest symbol w1.
Proof.
  induction before as [ | [get_price name] before IH]; intros rest w w1 Hp.
  - inversion Hp; subst. reflexivity.
  - inversion Hp as [ | ? ? ? q ? w0 ? Hq Hbad Hrest]; subst.
    simpl. unfold IO.bind at 1. rewrite Hq.
    assert (negb (is_error q) && Float.gtb (price q) Float.zero = false) as ->.
    { destruct (negb (is_error q) && Float.gtb (price q) Float.zero) eqn:E; auto.
      exfalso. apply Hbad. apply andb_true_iff in E. destruct E as [E1 E2].
      split; auto. unfold is_error in E1. now destruct (error q). }
    now apply IH.
Qed.

Lemma unusable_not_usable (q : ExchangePrice) :
  Spec.unusable q -> ~ Spec.usable q.
Proof.
  intros [He | Hp] [Hnone Hgt].
  - unfold is_error in He. rewrite Hnone in He. discriminate.
  - apply not_positive in Hp. congruence.
Qed.

Lemma probed_weaken (symbol : string) (bad bad' : ExchangePrice -> Prop) :
  (forall q, bad q -> bad' q) ->
  forall clients w w',
    Spec.probed symbol bad clients w w' -> Spec.probed symbol bad' clients w w'.
Proof.
  intros Himp clients w w' Hp.
  induction Hp; econstructor; eauto.
Qed.

(** C1. The resolver probes the four clients [get_upbit_price],
    [get_bithumb_price], [get_coinone_price] and [get_coingecko_price], in
    this order and under the names Upbit, Bithumb, Coinone and Coingecko.
    Take any one of the four: when the clients before it in this order,
    called one after the other, return quotes that are not usable, and it
    returns a quote with no error and a price above zero, the resolver
    returns that price with that client's name, in the world that client
    left; and it does so whatever clients come after it in the list, which
    are therefore not called. *)
Theorem get_first_valid_price_first_usable (symbol : string) before get_price
    (name : string) after (q : ExchangePrice) (w w1 w2 : world) :
  [ (PriceAPI.get_upbit_price, "Upbit");
    (PriceAPI.get_bithumb_price, "Bithumb");
    (PriceAPI.get_coinone_price, "Coinone");
    (PriceAPI.get_coingecko_price, "Coingecko") ]
  = before ++ (get_price, name) :: after ->
  Spec.probed symbol (fun q => ~ Spec.usable q) before w w1 ->
  get_price symbol w1 = (Ok q, w2) ->
  Spec.usable q ->
  exchanges = [ (PriceAPI.get_upbit_price, "Upbit");
                (PriceAPI.get_bithumb_price, "Bithumb");
                (PriceAPI.get_coinone_price, "Coinone");
                (PriceAPI.get_coingecko_price, "Coingecko") ]
  /\ get_first_valid_price symbol w = (Ok (price q, name), w2)
  /\ forall later,
       first_valid_price (before ++ (get_price, name) :: later) symbol w
       = (Ok (price q, name), w2).
Proof.
  intros Hsplit Hbefore Hq [Hnone Hgt].
  assert (forall later,
             first_valid_price (before ++ (get_price, name) :: later) symbol w
             = (Ok (price q, name), w2)) as Hany.
  { intros later. rewrite (first_valid_price_skips symbol before _ w w1 Hbefore).
    simpl. unfold IO.bind. rewrite Hq.
    unfold is_error. rewrite Hnone, Hgt. reflexivity. }
  split; [reflexivity | split].
  - unfold get_first_valid_price, exchanges. rewrite Hsplit. apply Hany.
  - exact Hany.
Qed.

(** The chain when no client returns a usable quote. *)
Lemma get_first_valid_price_exhausted (symbol : string) (w w' : world) :
  Spec.probed symbol (fun q => ~ Spec.usable q) exchanges w w' ->
  get_first_valid_price symbol w = (Ok (Float.zero, "No valid price found"), w').
Proof.
  intros Hp. unfold get_first_valid_price.
  rewrite <- (app_nil_r exchanges).
  now rewrite (first_valid_price_skips symbol exchanges [] w w' Hp).
Qed.

End Resolver.

(** ** The exchange clients on a response *)

Section Clients.

Context `{PyRuntime}.

Import PortfolioManager.

Lemma lower_not_krw (coin : string) :
  Str.lower coin <> "krw" -> String.eqb (Str.lower coin) "krw" = false.
Proof. intros Hne. now apply String.eqb_neq. Qed.

Ltac pick_client Hin :=
  simpl in Hin;
  destruct Hin as [E | [E | [E | [E | []]]]]; inversion E; subst; clear E.

Ltac open_client :=
  unfold PriceAPI.get_upbit_price, PriceAPI.get_bithumb_price,
    PriceAPI.get_coinone_price, PriceAPI.get_coingecko_price,
    PriceAPI._make_request, IO.bind, IO.ret, IO.lift.

(** A client on a body of the shape it expects. *)
Lemma client_on_price_field (get_price : string -> M ExchangePrice)
    (name coin : string) (w : world) (json : pyval) (field : option pyval) :
  In (get_price, name) exchanges ->
  Str.lower coin <> "krw" ->
  (forall url, requests_get (requested w) url = Body json) ->
  Spec.price_field coin name json field ->
  exists url,
    get_price coin w
    = (Spec.quote_of_field name coin field,
       World (requested w ++ [url]) (printed w)).
Proof.
  intros Hin Hkrw Hbody Hfield. apply lower_not_krw in Hkrw.
  pick_client Hin; inversion Hfield; subst; open_client;
    rewrite Hkrw, Hbody; eexists; simpl;
    repeat match goal with
           | Hl : Py.lookup _ _ = _ |- _ => rewrite Hl; simpl
           end;
    unfold Spec.quote_of_field;
    match goal with
    | |- context [ Py.lookup ?d ?k ] =>
        destruct (Py.lookup d k) as [v | ]; simpl;
        [ destruct (Py.to_float v) as [value | []] | ]; reflexivity
    | |- _ => reflexivity
    end.
Qed.

Ltac split_cases :=
  repeat (cbn;
          match goal with
          | |- context [ match ?x with _ => _ end ] => is_var x; destruct x
          | |- context [ match Py.lookup ?d ?k with _ => _ end ] =>
              destruct (Py.lookup d k)
          | |- context [ match Py.to_float ?v with _ => _ end ] =>
              destruct (Py.to_float v)
          | |- context [ if ?c then _ else _ ] => destruct c
          end).

(** A quote carries the name of its client, and an error only together
    with the price 0.0. *)
Lemma returned_quote (get_price : string -> M ExchangePrice) (name coin : string)
    (w w' : world) (q : ExchangePrice) :
  In (get_price, name) exchanges ->
  get_price coin w = (Ok q, w') ->
  exchange q = name /\ (is_error q = true -> price q = Float.zero).
Proof.
  intros Hin Hrun.
  pick_client Hin; revert Hrun; open_client;
    unfold Exc.try_except, Exc.bind, PriceAPI.invalid_price;
    (destruct (String.eqb (Str.lower coin) "krw");
     [ intros Hrun; inversion Hrun; subst; unfold is_error; simpl; split; congruence | ]);
    (destruct (requests_get _ _) as [message | json];
     [ intros Hrun; inversion Hrun; subst; unfold is_error; simpl; split; congruence | ]);
    unfold Py.get, Py.item, Py.item0, Py.len, Py.truthy, Py.eq_str;
    split_cases; intros Hrun; inversion Hrun; subst; unfold is_error; simpl;
    split; congruence.
Qed.

(** C5, amended. Whenever one of the four clients returns a quote, the
    quote carries the client's name, and either its error is absent or its
    error is present and its price is 0.0. (A quote without error may have
    a price that is not above zero.) *)
Theorem quote_error_goes_with_zero_price (get_price : string -> M ExchangePrice)
    (name coin : string) (w w' : world) (q : ExchangePrice) :
  In (get_price, name) exchanges ->
  get_price coin w = (Ok q, w') ->
  exchange q = name
  /\ (error q = None \/ (error q <> None /\ price q = Float.zero)).
Proof.
  intros Hin Hrun.
  destruct (returned_quote get_price name coin w w' q Hin Hrun) as [Hname Hzero].
  split; [exact Hname | ].
  unfold is_error in Hzero. destruct (error q) as [message | ].
  - right. split; [discriminate | now apply Hzero].
  - now left.
Qed.

(** C6, amended. For a symbol other than the quote currency and each of
    the four clients:
    - when the transport fails, the client returns the price 0.0 and the
      error ["Error: "] followed by the message of the transport;
    - when the body has the expected shape and its price does not convert
      ([float] raises [ValueError] or [TypeError]), the client returns the
      price 0.0 and its message for an invalid price;
    - when the body has the expected shape and no price field, the client
      returns the price 0.0 and no error. *)
Theorem client_failures_captured (get_price : string -> M ExchangePrice)
    (name coin : string) (w : world) :
  In (get_price, name) exchanges ->
  Str.lower coin <> "krw" ->
  (forall message,
      (forall url, requests_get (requested w) url = RequestException message) ->
      exists w',
        get_price coin w
        = (Ok (mkExchangePrice name Float.zero
                 (Some ("Error: " ++ message)%string)), w'))
  /\ (forall json v,
         (forall url, requests_get (requested w) url = Body json) ->
         Spec.price_field coin name json (Some v) ->
         Py.to_float v = Raise ValueError \/ Py.to_float v = Raise TypeError ->
         exists w',
           get_price coin w
           = (Ok (mkExchangePrice name Float.zero
                    (Some (Spec.invalid_message name coin))), w'))
  /\ (forall json,
         (forall url, requests_get (requested w) url = Body json) ->
         Spec.price_field coin name json None ->
         exists w',
           get_price coin w = (Ok (mkExchangePrice name Float.zero None), w')).
Proof.
  intros Hin Hkrw. split; [ | split].
  - intros message Hfail. apply lower_not_krw in Hkrw.
    pick_client Hin; open_client; rewrite Hkrw, Hfail; eexists; reflexivity.
  - intros json v Hbody Hfield Hraise.
    destruct (client_on_price_field get_price name coin w json (Some v)
                Hin Hkrw Hbody Hfield) as [url Hrun].
    eexists. rewrite Hrun. unfold Spec.quote_of_field.
    destruct Hraise as [-> | ->]; reflexivity.
  - intros json Hbody Hfield.
    destruct (client_on_price_field get_price name coin w json None
                Hin Hkrw Hbody Hfield) as [url Hrun].
    eexists. rewrite Hrun. reflexivity.
Qed.

(** C7, amended. For a symbol other than the quote currency, on a body
    that is a mapping:
    - when the identifier of the symbol is missing from the mapping, or
      its entry is a mapping without the key [krw], Coingecko's client
      returns the price 0.0 and no error;
    - when the price under [krw] does not convert ([float] raises
      [ValueError] or [TypeError]), it returns the price 0.0 and the error
      ["Error: Unable to get price for "] followed by the symbol. *)
Theorem coingecko_missing_or_unparseable (coin : string) (w : world)
    (body : list (string * pyval)) :
  Str.lower coin <> "krw" ->
  (forall url, requests_get (requested w) url = Body (PyDict body)) ->
  ((Py.lookup body (PriceAPI.token_id_of coin) = None
    \/ exists inner,
         Py.lookup body (PriceAPI.token_id_of coin) = Some (PyDict inner)
         /\ Py.lookup inner "krw" = None) ->
   exists w',
     PriceAPI.get_coingecko_price coin w
     = (Ok (mkExchangePrice "Coingecko" Float.zero None), w'))
  /\ (forall inner v,
         Py.lookup body (PriceAPI.token_id_of coin) = Some (PyDict inner) ->
         Py.lookup inner "krw" = Some v ->
         Py.to_float v = Raise ValueError \/ Py.to_float v = Raise TypeError ->
         exists w',
           PriceAPI.get_coingecko_price coin w
           = (Ok (mkExchangePrice "Coingecko" Float.zero
                    (Some ("Error: Unable to get price for " ++ coin)%string)),
              w')).
Proof.
  intros Hkrw Hbody.
  assert (In (PriceAPI.get_coingecko_price, "Coingecko") exchanges) as Hin
      by (simpl; auto).
  split.
  - intros Hmissing.
    assert (Spec.price_field coin "Coingecko" (PyDict body) None) as Hfield.
    { destruct Hmissing as [Hnone | [inner [Hsome Hnone]]].
      - now apply Spec.field_coingecko_unlisted.
      - rewrite <- Hnone. now apply Spec.field_coingecko. }
    destruct (client_on_price_field _ _ coin w _ None Hin Hkrw Hbody Hfield)
      as [url Hrun].
    eexists. rewrite Hrun. reflexivity.
  - intros inner v Hentry Hprice Hraise.
    assert (Spec.price_field coin "Coingecko" (PyDict body) (Some v)) as Hfield.
    { rewrite <- Hprice. now apply Spec.field_coingecko. }
    destruct (client_on_price_field _ _ coin w _ (Some v) Hin Hkrw Hbody Hfield)
      as [url Hrun].
    eexists. rewrite Hrun. unfold Spec.quote_of_field.
    destruct Hraise as [-> | ->]; reflexivity.
Qed.

End Clients.

(** ** Loading the holdings *)

Section Holdings.

Context `{PyRuntime}.

Import PortfolioManager.

Lemma split_until_after (sep : ascii) (s : string) :
  Str.split sep s
  = Str.until sep s :: match Str.after sep s with
                       | Some rest => Str.split sep rest
                       | None => []
                       end.
Proof.
  induction s as [ | c s IH]; simpl.
  - reflexivity.
  - destruct (Ascii.eqb c sep).
    + reflexivity.
    + rewrite IH. reflexivity.
Qed.

Lemma prefix_append (p s : string) :
  String.prefix p s = true -> exists rest, s = (p ++ rest)%string.
Proof.
  revert s. induction p as [ | c p IH]; intros s Hp.
  - now exists s.
  - destruct s as [ | c' s]; simpl in Hp; [discriminate | ].
    destruct (ascii_dec c c') as [-> | ]; [ | discriminate].
    destruct (IH s Hp) as [rest ->]. now exists rest.
Qed.

(** The second piece of a name that starts with [CRYPTO_]. *)
Lemma second_piece (key : string) :
  Str.startswith key "CRYPTO_" = true ->
  index (Str.split "_" key) 1 = Ok (Spec.between_underscores key).
Proof.
  intros Hp. apply prefix_append in Hp. destruct Hp as [rest ->].
  unfold Spec.between_underscores, index.
  rewrite split_until_after.
  change (Str.after "_" ("CRYPTO_" ++ rest)%string) with (Some rest).
  simpl nth_error. rewrite split_until_after. reflexivity.
Qed.

Lemma load_holdings_loop_spec (environ : list (string * string)) :
  forall holdings w,
    load_holdings_loop environ holdings w
    = (Ok (holdings ++ Spec.loaded environ),
       World (requested w) (printed w ++ Spec.warnings environ)).
Proof.
  induction environ as [ | [key value] environ IH]; intros holdings w; simpl.
  - unfold IO.ret. rewrite !app_nil_r. destruct w; reflexivity.
  - destruct (Str.startswith key "CRYPTO_") eqn:Hp; [ | apply IH].
    unfold IO.bind, IO.lift, IO.print, Exc.bind, Exc.try_except.
    rewrite (second_piece key Hp). simpl.
    destruct (float_of_str value) as [amount | ]; simpl.
    + rewrite IH, <- app_assoc. reflexivity.
    + rewrite IH. simpl. rewrite <- app_assoc. reflexivity.
Qed.

(** C9, amended. [load_holdings] never raises. The holdings it keeps are
    those of the variables named [CRYPTO_...] whose value [float] accepts,
    each with the amount [float] returns, of whatever sign, infinite or
    NaN; for every such variable whose value [float] refuses it prints a
    warning and keeps nothing. *)
Theorem load_holdings_keeps_what_float_accepts
    (environ : list (string * string)) (w : world) :
  load_holdings environ w
  = (Ok (Spec.loaded environ),
     World (requested w) (printed w ++ Spec.warnings environ)).
Proof.
  unfold load_holdings. now rewrite load_holdings_loop_spec.
Qed.

Lemma loaded_In (environ : list (string * string)) (key value : string)
    (amount : Float.float) :
  In (key, value) environ ->
  Str.startswith key "CRYPTO_" = true ->
  float_of_str value = Some amount ->
  In (mkCryptoHolding (Str.lower (Spec.between_underscores key)) amount)
     (Spec.loaded environ).
Proof.
  intros Hin Hp Hf.
  induction environ as [ | [key' value'] environ IH]; simpl in *.
  - contradiction.
  - destruct Hin as [E | Hin].
    + inversion E; subst. rewrite Hp, Hf. now left.
    + specialize (IH Hin).
      destruct (Str.startswith key' "CRYPTO_"); auto.
      destruct (float_of_str value'); auto. now right.
Qed.

(** C10. For every variable of the environment whose name starts with
    [CRYPTO_] (and whose value is an amount), the holding loaded for it has
    as its symbol the text between the first and the second underscore of
    the name, in lower case: what follows a second underscore is dropped,
    and [CRYPTO_USD_COIN] gives the symbol [usd]. *)
Theorem symbol_is_second_piece (environ : list (string * string))
    (key value : string) (amount : Float.float) (w : world) :
  In (key, value) environ ->
  Str.startswith key "CRYPTO_" = true ->
  float_of_str value = Some amount ->
  (exists holdings w',
      load_holdings environ w = (Ok holdings, w')
      /\ In (mkCryptoHolding (Str.lower (Spec.between_underscores key)) amount)
            holdings)
  /\ Str.lower (Spec.between_underscores "CRYPTO_USD_COIN") = "usd".
Proof.
  intros Hin Hp Hf. split; [ | reflexivity].
  eexists. eexists. split.
  - unfold load_holdings. apply load_holdings_loop_spec.
  - now apply loaded_In with (value := value).
Qed.

End Holdings.

(** ** Sorting the rows *)

Section Sorting.

Import Spec.

Lemma Forall_perm {A} (P : A -> Prop) (l l' : list A) :
  Permutation l l' -> Forall P l -> Forall P l'.
Proof. intros Hp Hl. now rewrite <- Hp. Qed.

Lemma insert_perm (r : Row) (l : list Row) :
  Permutation (Pandas.insert r l) (r :: l).
Proof.
  induction l as [ | a l IH]; simpl.
  - reflexivity.
  - destruct (Float.leb (Pandas.key r) (Pandas.key a)).
    + reflexivity.
    + transitivity (a :: r :: l).
      * now constructor.
      * apply perm_swap.
Qed.

Lemma argsort_perm (l : list Row) : Permutation (Pandas.argsort l) l.
Proof.
  induction l as [ | a l IH]; simpl.
  - reflexivity.
  - transitivity (a :: Pandas.argsort l).
    + apply insert_perm.
    + now constructor.
Qed.

Lemma filter_split_perm {A} (f : A -> bool) (l : list A) :
  Permutation (filter (fun x => negb (f x)) l ++ filter f l) l.
Proof.
  induction l as [ | a l IH]; simpl.
  - reflexivity.
  - destruct (f a); simpl.
    + symmetry. apply Permutation_cons_app. now symmetry.
    + now constructor.
Qed.

Lemma nargsort_perm (rows : list Row) :
  Permutation (Pandas.nargsort_descending rows) rows.
Proof.
  unfold Pandas.nargsort_descending.
  transitivity (Pandas.non_nans rows ++ Pandas.nans rows).
  - apply Permutation_app_tail.
    transitivity (Pandas.argsort (rev (Pandas.non_nans rows))).
    + symmetry. apply Permutation_rev.
    + transitivity (rev (Pandas.non_nans rows)).
      * apply argsort_perm.
      * symmetry. apply Permutation_rev.
  - apply (filter_split_perm (fun r => Float.is_nan (Pandas.key r))).
Qed.

Lemma insert_sorted (r : Row) (l : list Row) :
  not_nan r -> Forall not_nan l ->
  LocallySorted le_key l -> LocallySorted le_key (Pandas.insert r l).
Proof.
  intros Hr Hl Hs. induction Hs as [ | a | a b l Hs IH Hab].
  - constructor.
  - simpl. destruct (Float.leb (Pandas.key r) (Pandas.key a)) eqn:E.
    + constructor; [constructor | exact E].
    + constructor; [constructor | ].
      apply leb_total; auto. now inversion Hl.
  - inversion Hl as [ | ? ? Ha Hl']; subst.
    specialize (IH Hl'). simpl in *.
    destruct (Float.leb (Pandas.key r) (Pandas.key a)) eqn:Ea.
    + constructor; [constructor; assumption | exact Ea].
    + destruct (Float.leb (Pandas.key r) (Pandas.key b)) eqn:Eb.
      * constructor; [exact IH | ]. apply leb_total; auto.
      * constructor; assumption.
Qed.

Lemma argsort_sorted (l : list Row) :
  Forall not_nan l -> LocallySorted le_key (Pandas.argsort l).
Proof.
  induction l as [ | a l IH]; intros Hl; simpl.
  - constructor.
  - inversion Hl; subst. apply insert_sorted; auto.
    apply (Forall_perm _ l); [ | assumption].
    symmetry. apply argsort_perm.
Qed.

Lemma sorted_adjacent (l : list Row) :
  LocallySorted le_key l ->
  forall i a b,
    nth_error l i = Some a -> nth_error l (S i) = Some b -> le_key a b.
Proof.
  intros Hs. induction Hs as [ | x | x y l Hs IH Hxy]; intros i a b Ha Hb.
  - destruct i; discriminate.
  - destruct i as [ | [ | ]]; discriminate.
  - destruct i as [ | i].
    + simpl in *. congruence.
    + apply (IH i); assumption.
Qed.

Lemma descending_rev (l : list Row) :
  (forall i a b,
      nth_error l i = Some a -> nth_error l (S i) = Some b -> le_key a b) ->
  Spec.descending (rev l).
Proof.
  intros Hasc i a b Ha Hb. rewrite nth_error_rev in Ha, Hb.
  destruct (Nat.ltb_spec (S i) (List.length l)) as [Hlt | ]; [ | discriminate].
  destruct (Nat.ltb_spec i (List.length l)) as [ | ]; [ | discriminate].
  unfold Float.geb. apply (Hasc (List.length l - S (S i))%nat); [exact Hb | ].
  replace (S (List.length l - S (S i))) with (List.length l - S i)%nat by lia.
  exact Ha.
Qed.

(** The order [sort_values] leaves: the rows whose value is a number, by
    decreasing value, then the rows whose value is NaN. *)
Lemma nargsort_descending_spec (rows : list Row) :
  Spec.descending (rev (Pandas.argsort (rev (Pandas.non_nans rows))))
  /\ Forall not_nan (rev (Pandas.argsort (rev (Pandas.non_nans rows))))
  /\ Forall (fun r => Float.is_nan (Pandas.key r) = true) (Pandas.nans rows).
Proof.
  assert (Forall not_nan (rev (Pandas.non_nans rows))) as Hnn.
  { apply Forall_rev. apply Forall_forall. intros r Hr.
    apply filter_In in Hr. destruct Hr as [_ Hr].
    unfold not_nan. now destruct (Float.is_nan (Pandas.key r)). }
  split; [ | split].
  - apply descending_rev. apply sorted_adjacent. now apply argsort_sorted.
  - apply Forall_rev.
    apply (Forall_perm _ (rev (Pandas.non_nans rows))); [ | exact Hnn].
    symmetry. apply argsort_perm.
  - apply Forall_forall. intros r Hr. apply filter_In in Hr. tauto.
Qed.

End Sorting.

(** ** The report *)

Section Report.

Context `{PyRuntime}.

Import PortfolioManager.

Lemma portfolio_loop_spec (t : string) (holdings : list CryptoHolding) :
  forall data total w,
    portfolio_loop t holdings data total w
    = match Spec.resolve_all holdings w with
      | (Ok founds, w') =>
          (Ok (data ++ Spec.holding_rows t holdings founds,
               fold_left Float.add
                 (map Total_Value_KRW (Spec.holding_rows t holdings founds))
                 total),
           w')
      | (Raise e, w') => (Raise e, w')
      end.
Proof.
  induction holdings as [ | h rest IH]; intros data total w; simpl.
  - unfold IO.ret. now rewrite app_nil_r.
  - unfold IO.bind.
    destruct (get_first_valid_price (symbol h) w) as [[[p x] | e] w1];
      [ | reflexivity].
    rewrite IH.
    destruct (Spec.resolve_all rest w1) as [[founds | e] w2]; [ | reflexivity].
    unfold IO.ret. simpl. rewrite <- app_assoc. reflexivity.
Qed.

Lemma resolve_all_length (holdings : list CryptoHolding) :
  forall w founds w',
    Spec.resolve_all holdings w = (Ok founds, w') ->
    List.length founds = List.length holdings.
Proof.
  induction holdings as [ | h rest IH]; intros w founds w' Hres; simpl in Hres.
  - unfold IO.ret in Hres. now inversion Hres.
  - unfold IO.bind in Hres.
    destruct (get_first_valid_price (symbol h) w) as [[found | e] w1];
      [ | discriminate].
    destruct (Spec.resolve_all rest w1) as [[others | e] w2] eqn:Hrest;
      [ | discriminate].
    unfold IO.ret in Hres. inversion Hres; subst. simpl.
    f_equal. now apply (IH w1 others w').
Qed.


(** The report of holdings that all resolve: the rows as [sort_values]
    leaves them, then the total row. *)
Lemma calculate_portfolio_returns (t : string) (holdings : list CryptoHolding)
    (w w' : world) (founds : list (Float.float * string)) :
  holdings <> [] ->
  Spec.resolve_all holdings w = (Ok founds, w') ->
  calculate_portfolio t holdings w
  = (Ok (Pandas.nargsort_descending (Spec.holding_rows t holdings founds)
         ++ [total_row t (Spec.float_sum (Spec.holding_rows t holdings founds))]),
     w').
Proof.
  intros Hne Hres.
  pose proof (resolve_all_length holdings w founds w' Hres) as Hlen.
  unfold calculate_portfolio, IO.bind at 1.
  rewrite portfolio_loop_spec, Hres. simpl.
  destruct holdings as [ | h rest]; [contradiction | ].
  destruct founds as [ | found others]; [discriminate | ].
  reflexivity.
Qed.

(** Without holdings the frame has no column to sort by. *)
Lemma calculate_portfolio_without_holdings (t : string) (w : world) :
  calculate_portfolio t [] w = (Raise KeyError, w).
Proof. reflexivity. Qed.

Lemma nargsort_one (r : Row) : Pandas.nargsort_descending [r] = [r].
Proof.
  unfold Pandas.nargsort_descending, Pandas.non_nans, Pandas.nans. simpl.
  destruct (Float.is_nan (Pandas.key r)); reflexivity.
Qed.

(** C2. When each of the four clients returns a quote that is erroneous or
    has a price at most zero, the resolver returns the price 0.0 with the
    label ["No valid price found"] and raises nothing; and the report of a
    holding of that symbol is built: its row has the price 0.0, that label
    and the value 0.0 times the amount, and the total row follows. *)
Theorem get_first_valid_price_no_valid_price (symbol : string) (w w' : world) :
  Spec.probed symbol Spec.unusable exchanges w w' ->
  get_first_valid_price symbol w
  = (Ok (Float.zero, "No valid price found"), w')
  /\ forall t amount,
       calculate_portfolio t [mkCryptoHolding symbol amount] w
       = (Ok [ mkRow t (Str.upper symbol) (Some amount) (Some Float.zero)
                 (Some "No valid price found") (Float.mul Float.zero amount);
               total_row t (Float.add Float.zero (Float.mul Float.zero amount)) ],
          w').
Proof.
  intros Hp.
  assert (get_first_valid_price symbol w
          = (Ok (Float.zero, "No valid price found"), w')) as Hres.
  { apply get_first_valid_price_exhausted.
    apply (probed_weaken symbol Spec.unusable); [ | exact Hp].
    apply unusable_not_usable. }
  split; [exact Hres | ].
  intros t amount.
  rewrite (calculate_portfolio_returns t _ w w'
             [(Float.zero, "No valid price found")]).
  - simpl Spec.holding_rows. rewrite nargsort_one. reflexivity.
  - discriminate.
  - simpl. unfold IO.bind. simpl. rewrite Hres. reflexivity.
Qed.


(** C4, amended. For holdings that are not empty and all resolve, the
    report is: the rows whose value is not NaN, any two of them next to
    each other in decreasing order of value; then the rows whose value is
    NaN; then the total row, last whatever its value. The rows before the
    total row are the rows of the holdings. *)
Theorem rows_descending_then_nan_then_total (t : string)
    (holdings : list CryptoHolding) (w w' : world)
    (founds : list (Float.float * string)) :
  holdings <> [] ->
  Spec.resolve_all holdings w = (Ok founds, w') ->
  exists sorted nan_rows total,
    calculate_portfolio t holdings w
    = (Ok (sorted ++ nan_rows ++ [total_row t total]), w')
    /\ Spec.descending sorted
    /\ Forall Spec.not_nan sorted
    /\ Forall (fun r => Float.is_nan (Total_Value_KRW r) = true) nan_rows
    /\ Permutation (sorted ++ nan_rows) (Spec.holding_rows t holdings founds).
Proof.
  intros Hne Hres.
  pose (rows := Spec.holding_rows t holdings founds).
  destruct (nargsort_descending_spec rows) as [Hdesc [Hnn Hnan]].
  exists (rev (Pandas.argsort (rev (Pandas.non_nans rows)))).
  exists (Pandas.nans rows).
  exists (Spec.float_sum rows).
  split; [ | split; [exact Hdesc | split; [exact Hnn | split; [exact Hnan | ]]]].
  - rewrite (calculate_portfolio_returns t holdings w w' founds Hne Hres).
    unfold Pandas.nargsort_descending. fold rows.
    now rewrite <- app_assoc.
  - apply nargsort_perm.
Qed.

End Report.

(** ** The theorems on examples *)

Section Examples.

Import PortfolioManager.

(** C8 on the symbol [KrW], with a transport that would fail. *)
Lemma krw_is_pegged_witness :
  Str.lower "KrW" = "krw"
  /\ @PriceAPI.get_coinone_price Demo.offline "KrW" Demo.start
     = (Ok (mkExchangePrice "Coinone" Float.one None), Demo.start).
Proof.
  split; [reflexivity | ].
  apply (@krw_is_pegged Demo.offline
           (@PriceAPI.get_coinone_price Demo.offline) "Coinone" "KrW").
  - simpl. auto.
  - reflexivity.
Defined.

(** C1 where Upbit, Bithumb and Coinone fail and Coingecko answers: the
    three are probed in order, then Coingecko, whose price is returned. *)
Lemma get_first_valid_price_first_usable_witness :
  @get_first_valid_price Demo.coingecko_only "btc" Demo.start
  = (Ok (Float.of_Z 50000000, "Coingecko"),
     World [ "https://api.upbit.com/v1/ticker?markets=KRW-BTC";
             "https://api.bithumb.com/public/ticker/btc_KRW";
             "https://api.coinone.co.kr/ticker/?currency=btc";
             "https://api.coingecko.com/api/v3/simple/price?ids=bitcoin&vs_currencies=krw" ]
           []).
Proof.
  refine (proj1 (proj2
    (@get_first_valid_price_first_usable Demo.coingecko_only "btc"
       [ (@PriceAPI.get_upbit_price Demo.coingecko_only, "Upbit");
         (@PriceAPI.get_bithumb_price Demo.coingecko_only, "Bithumb");
         (@PriceAPI.get_coinone_price Demo.coingecko_only, "Coinone") ]
       (@PriceAPI.get_coingecko_price Demo.coingecko_only) "Coingecko"
       []
       (mkExchangePrice "Coingecko" (Float.of_Z 50000000) None)
       Demo.start
       (World [ "https://api.upbit.com/v1/ticker?markets=KRW-BTC";
                "https://api.bithumb.com/public/ticker/btc_KRW";
                "https://api.coinone.co.kr/ticker/?currency=btc" ] [])
       _ eq_refl _ eq_refl _))).
  - repeat (eapply Spec.probed_cons;
            [ lazy; reflexivity | intros [Hnone _]; discriminate Hnone | ]).
    apply Spec.probed_nil.
  - split; reflexivity.
Defined.

(** C2 where every request fails. *)
Lemma get_first_valid_price_no_valid_price_witness :
  @get_first_valid_price Demo.offline "btc" Demo.start
  = (Ok (Float.zero, "No valid price found"),
     World [ "https://api.upbit.com/v1/ticker?markets=KRW-BTC";
             "https://api.bithumb.com/public/ticker/btc_KRW";
             "https://api.coinone.co.kr/ticker/?currency=btc";
             "https://api.coingecko.com/api/v3/simple/price?ids=bitcoin&vs_currencies=krw" ]
           []).
Proof.
  refine (proj1 (@get_first_valid_price_no_valid_price Demo.offline "btc"
                   Demo.start _ _)).
  repeat (eapply Spec.probed_cons; [lazy; reflexivity | left; reflexivity | ]).
  apply Spec.probed_nil.
Defined.

(** C5: Upbit answers with an entry that has no price. The quote has the
    price 0.0 and no error, against the invariant as worded. *)
Lemma upbit_entry_without_price_breaks_invariant :
  exists q w',
    @PriceAPI.get_upbit_price (Demo.always (PyList [PyDict []])) "btc"
      Demo.start = (Ok q, w')
    /\ q = mkExchangePrice "Upbit" Float.zero None
    /\ ~ Spec.quote_invariant q.
Proof.
  eexists. eexists. split; [lazy; reflexivity | split; [reflexivity | ]].
  intros [[Hgt _] | Herr].
  - discriminate Hgt.
  - now apply Herr.
Qed.

(** C5, amended, on a request that fails. *)
Lemma quote_error_goes_with_zero_price_witness :
  let q := mkExchangePrice "Upbit" Float.zero
             (Some "Error: Connection refused") in
  exchange q = "Upbit"
  /\ (error q = None \/ (error q <> None /\ price q = Float.zero)).
Proof.
  apply (@quote_error_goes_with_zero_price Demo.offline
           (@PriceAPI.get_upbit_price Demo.offline) "Upbit" "btc" Demo.start
           (World ["https://api.upbit.com/v1/ticker?markets=KRW-BTC"] [])).
  - simpl. auto.
  - reflexivity.
Defined.

(** C6: Bithumb answers with a successful status and data without a
    closing price. The quote has no error. *)
Lemma bithumb_data_without_price_has_no_error :
  exists q w',
    @PriceAPI.get_bithumb_price
      (Demo.always (PyDict [("status", PyStr "0000"); ("data", PyDict [])]))
      "btc" Demo.start = (Ok q, w')
    /\ ~ Spec.failure_quote q.
Proof.
  eexists. eexists. split; [lazy; reflexivity | ].
  intros [_ [message Herr]]. discriminate Herr.
Qed.

(** C6, amended, on Coinone: a request that fails, and a price that is
    null. *)
Lemma client_failures_captured_witness :
  (exists w',
      @PriceAPI.get_coinone_price Demo.offline "btc" Demo.start
      = (Ok (mkExchangePrice "Coinone" Float.zero
               (Some "Error: Connection refused")), w'))
  /\ (exists w',
         @PriceAPI.get_coinone_price
           (Demo.always (PyDict [("errorCode", PyStr "0"); ("last", PyNone)]))
           "btc" Demo.start
         = (Ok (mkExchangePrice "Coinone" Float.zero
                  (Some "Error: Invalid price data")), w')).
Proof.
  split.
  - refine (proj1 (@client_failures_captured Demo.offline
                     (@PriceAPI.get_coinone_price Demo.offline) "Coinone" "btc" Demo.start
                     _ _) "Connection refused" _).
    + simpl. auto.
    + discriminate.
    + reflexivity.
  - refine (proj1 (proj2 (@client_failures_captured
                     (Demo.always
                        (PyDict [("errorCode", PyStr "0"); ("last", PyNone)]))
                     (@PriceAPI.get_coinone_price
                        (Demo.always
                           (PyDict [("errorCode", PyStr "0"); ("last", PyNone)])))
                     "Coinone" "btc" Demo.start
                     _ _)) _ PyNone _ _ _).
    + simpl. auto.
    + discriminate.
    + reflexivity.
    + apply (@Spec.field_coinone "btc"
               [("errorCode", PyStr "0"); ("last", PyNone)]).
      reflexivity.
    + right. reflexivity.
Defined.

(** C7: Coingecko answers with an empty mapping. The quote has no error. *)
Lemma coingecko_unlisted_has_no_error :
  @PriceAPI.get_coingecko_price (Demo.always (PyDict [])) "btc" Demo.start
  = (Ok (mkExchangePrice "Coingecko" Float.zero None),
     World ["https://api.coingecko.com/api/v3/simple/price?ids=bitcoin&vs_currencies=krw"] [])
  /\ ~ exists w',
         @PriceAPI.get_coingecko_price (Demo.always (PyDict [])) "btc"
           Demo.start
         = (Ok (mkExchangePrice "Coingecko" Float.zero
                  (Some "Error: Unable to get price for btc")), w').
Proof.
  split; [reflexivity | ].
  intros [w' Hrun]. discriminate Hrun.
Qed.

(** C7, amended, on a price that is null. *)
Lemma coingecko_missing_or_unparseable_witness :
  exists w',
    @PriceAPI.get_coingecko_price
      (Demo.always (PyDict [("bitcoin", PyDict [("krw", PyNone)])]))
      "BTC" Demo.start
    = (Ok (mkExchangePrice "Coingecko" Float.zero
             (Some "Error: Unable to get price for BTC")), w').
Proof.
  refine (proj2 (@coingecko_missing_or_unparseable
                   (Demo.always (PyDict [("bitcoin", PyDict [("krw", PyNone)])]))
                   "BTC" Demo.start
                   [("bitcoin", PyDict [("krw", PyNone)])] _ _)
            [("krw", PyNone)] PyNone _ _ _).
  - discriminate.
  - reflexivity.
  - reflexivity.
  - reflexivity.
  - right. reflexivity.
Defined.

(** C9: an amount below zero is loaded. *)
Lemma negative_amount_is_loaded :
  exists holdings w',
    @load_holdings Demo.offline [("CRYPTO_BTC", "-5")] Demo.start
    = (Ok holdings, w')
    /\ ~ Forall (fun h => Spec.nonnegative_decimal (amount h)) holdings.
Proof.
  eexists. eexists. split; [lazy; reflexivity | ].
  intros Hall. inversion Hall as [ | h rest [_ Hle] _]; subst.
  discriminate Hle.
Qed.

(** C10 on the name [CRYPTO_USD_COIN]. *)
Lemma symbol_is_second_piece_witness :
  exists holdings w',
    @load_holdings Demo.offline
      [("HOME", "/root"); ("CRYPTO_USD_COIN", "3")] Demo.start
    = (Ok holdings, w')
    /\ In (mkCryptoHolding "usd" (Float.of_Z 3)) holdings.
Proof.
  refine (proj1 (@symbol_is_second_piece Demo.offline
                   [("HOME", "/root"); ("CRYPTO_USD_COIN", "3")]
                   "CRYPTO_USD_COIN" "3" (Float.of_Z 3) Demo.start _ _ _)).
  - simpl. auto.
  - reflexivity.
  - reflexivity.
Defined.



(** C4: a holding whose amount is NaN and a holding of 1, both in the
    quote currency. The row of value 1 comes before the row of value NaN,
    and 1 >= NaN does not hold. *)
Lemma nan_row_breaks_descending_order :
  exists report w',
    @calculate_portfolio Demo.offline "2025-01-01 00:00:00"
      [ Demo.krw Float.nan; Demo.krw Float.one ]
      Demo.start = (Ok report, w')
    /\ ~ Spec.sorted_then_total report.
Proof.
  eexists. eexists. split; [lazy; reflexivity | ].
  intros [rows [total [Hrep [_ Hdesc]]]].
  destruct rows as [ | r1 [ | r2 [ | r3 rows]]];
    simpl in Hrep; try discriminate Hrep.
  - inversion Hrep; subst; clear Hrep.
    specialize (Hdesc 0%nat _ _ eq_refl eq_refl). discriminate Hdesc.
  - destruct rows; discriminate Hrep.
Qed.

(** C4, amended, on the same holdings. *)
Lemma rows_descending_then_nan_then_total_witness :
  exists sorted nan_rows total,
    @calculate_portfolio Demo.offline "2025-01-01 00:00:00"
      [ Demo.krw Float.nan; Demo.krw Float.one ] Demo.start
    = (Ok (sorted ++ nan_rows ++ [total_row "2025-01-01 00:00:00" total]),
       Demo.start)
    /\ Spec.descending sorted
    /\ Forall (fun r => Float.is_nan (Total_Value_KRW r) = true) nan_rows.
Proof.
  destruct (@rows_descending_then_nan_then_total Demo.offline
              "2025-01-01 00:00:00"
              [ Demo.krw Float.nan; Demo.krw Float.one ]
              Demo.start Demo.start
              [ (Float.one, "Upbit"); (Float.one, "Upbit") ])
    as [sorted [nan_rows [total [Hrun [Hdesc [_ [Hnan _]]]]]]].
  - discriminate.
  - reflexivity.
  - exists sorted, nan_rows, total. auto.
Defined.

(** *** Exceptions that leave a client or the report builder *)

(** Upbit answers with a mapping instead of a list: [data[0]] raises
    [KeyError], which the [except] clause does not name. *)
Example upbit_mapping_raises :
  @PriceAPI.get_upbit_price (Demo.always (PyDict [("error", PyNone)]))
    "btc" Demo.start
  = (Raise KeyError,
     World ["https://api.upbit.com/v1/ticker?markets=KRW-BTC"] []).
Proof. reflexivity. Qed.

(** Bithumb answers with a successful status and no data. *)
Example bithumb_without_data_raises :
  @PriceAPI.get_bithumb_price (Demo.always (PyDict [("status", PyStr "0000")]))
    "btc" Demo.start
  = (Raise KeyError,
     World ["https://api.bithumb.com/public/ticker/btc_KRW"] []).
Proof. reflexivity. Qed.

(** Coinone answers with a list instead of a mapping. *)
Example coinone_list_raises :
  @PriceAPI.get_coinone_price (Demo.always (PyList [])) "btc" Demo.start
  = (Raise AttributeError,
     World ["https://api.coinone.co.kr/ticker/?currency=btc"] []).
Proof. reflexivity. Qed.

(** An exception of a client leaves the resolver and the report builder. *)
Example exception_reaches_the_report :
  @calculate_portfolio (Demo.always (PyDict [("error", PyNone)]))
    "2025-01-01 00:00:00" [mkCryptoHolding "btc" Float.one] Demo.start
  = (Raise KeyError,
     World ["https://api.upbit.com/v1/ticker?markets=KRW-BTC"] []).
Proof. reflexivity. Qed.

(** Without holdings the report builder raises. *)
Example empty_holdings_raise :
  @calculate_portfolio Demo.offline "2025-01-01 00:00:00" [] Demo.start
  = (Raise KeyError, Demo.start).
Proof. reflexivity. Qed.

(** The scenario of the specification: half a coin at 50,000,000 and
    1,000,000 of the quote currency. *)
Example scenario_btc_and_krw :
  @calculate_portfolio
    (Demo.table
       [ ("https://api.upbit.com/v1/ticker?markets=KRW-BTC",
          PyList [PyDict [("trade_price", PyFloat (Float.of_Z 50000000))]]) ])
    "2025-01-01 00:00:00"
    [ mkCryptoHolding "btc" (S754_finite false 4503599627370496 (-53));
      Demo.krw (Float.of_Z 1000000) ]
    Demo.start
  = (Ok [ mkRow "2025-01-01 00:00:00" "BTC"
            (Some (S754_finite false 4503599627370496 (-53)))
            (Some (Float.of_Z 50000000)) (Some "Upbit") (Float.of_Z 25000000);
          mkRow "2025-01-01 00:00:00" "KRW" (Some (Float.of_Z 1000000))
            (Some Float.one) (Some "Upbit") (Float.of_Z 1000000);
          total_row "2025-01-01 00:00:00" (Float.of_Z 26000000) ],
     World ["https://api.upbit.com/v1/ticker?markets=KRW-BTC"] []).
Proof. vm_compute. reflexivity. Qed.

End Examples.

(** * Further properties *)

(** ** What a client requests *)

Section ClientRequests.

Context `{PyRuntime}.

Import PortfolioManager.

Ltac pick_client Hin :=
  simpl in Hin;
  destruct Hin as [E | [E | [E | [E | []]]]]; inversion E; subst; clear E.

Ltac open_client :=
  unfold PriceAPI.get_upbit_price, PriceAPI.get_bithumb_price,
    PriceAPI.get_coinone_price, PriceAPI.get_coingecko_price,
    PriceAPI._make_request, IO.bind, IO.ret, IO.lift.

Ltac split_cases :=
  repeat (cbn;
          match goal with
          | |- context [ match ?x with _ => _ end ] => is_var x; destruct x
          | |- context [ match Py.lookup ?d ?k with _ => _ end ] =>
              destruct (Py.lookup d k)
          | |- context [ match Py.to_float ?v with _ => _ end ] =>
              destruct (Py.to_float v)
          | |- context [ if ?c then _ else _ ] => destruct c
          end).

(** The world after a client: as before for the quote currency, and with
    the client's URL added to the requests otherwise. *)
Lemma client_world (get_price : string -> M ExchangePrice) (name coin : string)
    (w : world) :
  In (get_price, name) exchanges ->
  exists url,
    In (name, url) (Vocab.client_urls coin)
    /\ snd (get_price coin w)
       = if String.eqb (Str.lower coin) "krw" then w
         else World (requested w ++ [url]) (printed w).
Proof.
  intros Hin.
  pick_client Hin; eexists; (split; [simpl; eauto 6 | ]); open_client;
    unfold Exc.try_except, Exc.bind, PriceAPI.invalid_price;
    (destruct (String.eqb (Str.lower coin) "krw"); [reflexivity | ]);
    (destruct (requests_get _ _) as [message | json]; [reflexivity | ]);
    unfold Py.get, Py.item, Py.item0, Py.len, Py.truthy, Py.eq_str;
    split_cases; reflexivity.
Qed.

Lemma clients_worlds (coin : string) :
  Str.lower coin <> "krw" ->
  Forall2 (fun client entry =>
             forall w,
               snd (fst client coin w)
               = World (requested w ++ [snd entry]) (printed w))
    exchanges (Vocab.client_urls coin).
Proof.
  intros Hkrw. apply String.eqb_neq in Hkrw.
  repeat constructor; intros w; simpl fst; simpl snd at 2; open_client;
    unfold Exc.try_except, Exc.bind, PriceAPI.invalid_price;
    rewrite Hkrw;
    (destruct (requests_get _ _) as [message | json]; [reflexivity | ]);
    unfold Py.get, Py.item, Py.item0, Py.len, Py.truthy, Py.eq_str;
    split_cases; reflexivity.
Qed.

(** X1. For a symbol other than the quote currency, each client requests
    its own URL exactly once and prints nothing, whatever the transport
    answers and whether the client returns a quote or raises. *)
Theorem client_requests_its_url_once (get_price : string -> M ExchangePrice)
    (name coin : string) (w : world) :
  In (get_price, name) exchanges ->
  Str.lower coin <> "krw" ->
  exists url,
    In (name, url) (Vocab.client_urls coin)
    /\ snd (get_price coin w) = World (requested w ++ [url]) (printed w).
Proof.
  intros Hin Hkrw. apply String.eqb_neq in Hkrw.
  destruct (client_world get_price name coin w Hin) as [url [Hurl Hw]].
  exists url. split; [exact Hurl | ]. now rewrite Hkrw in Hw.
Qed.

(** X2. When the body decodes to a JSON string, each client takes it for
    the error message of the transport: the quote has the price 0.0 and
    that string as its error. *)
Theorem string_body_becomes_the_error (get_price : string -> M ExchangePrice)
    (name coin text : string) (w : world) :
  In (get_price, name) exchanges ->
  Str.lower coin <> "krw" ->
  (forall url, requests_get (requested w) url = Body (PyStr text)) ->
  exists w',
    get_price coin w = (Ok (mkExchangePrice name Float.zero (Some text)), w').
Proof.
  intros Hin Hkrw Hbody. apply String.eqb_neq in Hkrw.
  pick_client Hin; open_client; rewrite Hkrw, Hbody; eexists; reflexivity.
Qed.

(** X3. Upbit's client reports an empty response for every body that is
    not a string and that Python takes for false: [null], [false], [0],
    [0.0], the empty list and the empty mapping. *)
Theorem upbit_falsy_body_is_empty_response (coin : string) (w : world)
    (json : pyval) :
  Str.lower coin <> "krw" ->
  (forall url, requests_get (requested w) url = Body json) ->
  Py.truthy json = false ->
  (forall text, json <> PyStr text) ->
  exists w',
    PriceAPI.get_upbit_price coin w
    = (Ok (mkExchangePrice "Upbit" Float.zero
             (Some "Error: Empty response from API")), w').
Proof.
  intros Hkrw Hbody Hfalsy Hstr. apply String.eqb_neq in Hkrw.
  open_client. rewrite Hkrw, Hbody. eexists.
  destruct json; try (rewrite Hfalsy; reflexivity).
  exfalso. now apply (Hstr s).
Qed.

(** X4. Bithumb's client, on a mapping whose [status] is not the string
    ["0000"] or is missing, returns the price 0.0 and the error
    ["Error: API returned status "] followed by the status as [str]
    formats it, [None] when it is missing; it does not look at the
    data. *)
Theorem bithumb_status_is_reported (coin : string) (w : world)
    (body : list (string * pyval)) :
  Str.lower coin <> "krw" ->
  (forall url, requests_get (requested w) url = Body (PyDict body)) ->
  Py.lookup body "status" <> Some (PyStr "0000") ->
  exists w',
    PriceAPI.get_bithumb_price coin w
    = (Ok (mkExchangePrice "Bithumb" Float.zero
             (Some ("Error: API returned status "
                    ++ str_of match Py.lookup body "status" with
                              | Some status => status
                              | None => PyNone
                              end)%string)), w').
Proof.
  intros Hkrw Hbody Hstatus. apply String.eqb_neq in Hkrw.
  open_client. rewrite Hkrw, Hbody. eexists. unfold Py.get.
  destruct (Py.lookup body "status") as [status | ]; [ | reflexivity].
  assert (Py.eq_str status "0000" = false) as Hne.
  { destruct status; try reflexivity. simpl.
    apply String.eqb_neq. intros ->. now apply Hstatus. }
  cbn. rewrite Hne. reflexivity.
Qed.

(** X5. Coinone's client, on a mapping whose [errorCode] is not the string
    ["0"] or is missing, returns the price 0.0 and the error
    ["Error: API returned errorCode "] followed by the code as [str]
    formats it, [None] when it is missing. *)
Theorem coinone_error_code_is_reported (coin : string) (w : world)
    (body : list (string * pyval)) :
  Str.lower coin <> "krw" ->
  (forall url, requests_get (requested w) url = Body (PyDict body)) ->
  Py.lookup body "errorCode" <> Some (PyStr "0") ->
  exists w',
    PriceAPI.get_coinone_price coin w
    = (Ok (mkExchangePrice "Coinone" Float.zero
             (Some ("Error: API returned errorCode "
                    ++ str_of match Py.lookup body "errorCode" with
                              | Some code => code
                              | None => PyNone
                              end)%string)), w').
Proof.
  intros Hkrw Hbody Hcode. apply String.eqb_neq in Hkrw.
  open_client. rewrite Hkrw, Hbody. eexists. unfold Py.get.
  destruct (Py.lookup body "errorCode") as [code | ]; [ | reflexivity].
  assert (Py.eq_str code "0" = false) as Hne.
  { destruct code; try reflexivity. simpl.
    apply String.eqb_neq. intros ->. now apply Hcode. }
  cbn. rewrite Hne. reflexivity.
Qed.

(** X6. On a body of the expected shape whose price converts, each client
    returns the converted price and no error: the price is passed on
    whatever it is, also when it is zero, negative, infinite or NaN. *)
Theorem convertible_price_is_returned (get_price : string -> M ExchangePrice)
    (name coin : string) (w : world) (json field : pyval)
    (value : Float.float) :
  In (get_price, name) exchanges ->
  Str.lower coin <> "krw" ->
  (forall url, requests_get (requested w) url = Body json) ->
  Spec.price_field coin name json (Some field) ->
  Py.to_float field = Ok value ->
  exists w',
    get_price coin w = (Ok (mkExchangePrice name value None), w').
Proof.
  intros Hin Hkrw Hbody Hfield Hvalue.
  destruct (client_on_price_field get_price name coin w json (Some field)
              Hin Hkrw Hbody Hfield) as [url Hrun].
  eexists. rewrite Hrun. unfold Spec.quote_of_field. now rewrite Hvalue.
Qed.

(** [float] raises nothing but [ValueError], [TypeError] and
    [OverflowError]. *)
Lemma to_float_raises (v : pyval) (e : exn) :
  Py.to_float v = Raise e ->
  e = ValueError \/ e = TypeError \/ e = OverflowError.
Proof.
  destruct v; simpl; intros Hr; try discriminate Hr;
    try (inversion Hr; auto; fail).
  - destruct (Float.is_finite (Float.of_Z z)); inversion Hr; auto.
  - destruct (float_of_str s); inversion Hr; auto.
Qed.

(** X7. On a body of the expected shape whose price is an integer too
    large for a float, the [OverflowError] of the conversion is not caught:
    it leaves the client; and it is the only exception of the conversion
    that does. *)
Theorem overflow_leaves_the_client (get_price : string -> M ExchangePrice)
    (name coin : string) (w : world) (json field : pyval) (e : exn) :
  In (get_price, name) exchanges ->
  Str.lower coin <> "krw" ->
  (forall url, requests_get (requested w) url = Body json) ->
  Spec.price_field coin name json (Some field) ->
  Py.to_float field = Raise e ->
  (e = OverflowError ->
   exists w', get_price coin w = (Raise OverflowError, w'))
  /\ (e <> OverflowError ->
      exists q w', get_price coin w = (Ok q, w')).
Proof.
  intros Hin Hkrw Hbody Hfield Hraise.
  destruct (client_on_price_field get_price name coin w json (Some field)
              Hin Hkrw Hbody Hfield) as [url Hrun].
  rewrite Hrun. unfold Spec.quote_of_field. rewrite Hraise.
  split.
  - intros ->. eexists. reflexivity.
  - intros Hne.
    destruct (to_float_raises field e Hraise) as [-> | [-> | ->]];
      [ | | contradiction]; eexists; eexists; reflexivity.
Qed.

End ClientRequests.

(** ** More on the fallback chain *)

Section ResolverMore.

Context `{PyRuntime}.

Import PortfolioManager.

Lemma upper_lower_char (c : ascii) :
  Str.upper_char (Str.lower_char c) = Str.upper_char c.
Proof.
  destruct c as [[] [] [] [] [] [] [] []]; reflexivity.
Qed.

Lemma upper_lower (s : string) : Str.upper (Str.lower s) = Str.upper s.
Proof.
  induction s as [ | c s IH]; simpl.
  - reflexivity.
  - now rewrite upper_lower_char, IH.
Qed.

(** X8. On symbols made of ASCII characters Upbit's client does not depend
    on the case of the letters: two such symbols with the same lower case
    give the same request, the same outcome and the same world. *)
Theorem upbit_ignores_case (coin coin' : string) (w : world) :
  Vocab.all_chars Vocab.is_ascii coin = true ->
  Vocab.all_chars Vocab.is_ascii coin' = true ->
  Str.lower coin = Str.lower coin' ->
  PriceAPI.get_upbit_price coin w = PriceAPI.get_upbit_price coin' w.
Proof.
  intros _ _ Hlow. unfold PriceAPI.get_upbit_price.
  rewrite <- (upper_lower coin), <- (upper_lower coin'), Hlow.
  reflexivity.
Qed.

Lemma first_valid_price_result (symbol : string) clients :
  forall w p name w',
    first_valid_price clients symbol w = (Ok (p, name), w') ->
    (p = Float.zero /\ name = "No valid price found")
    \/ (Float.gtb p Float.zero = true /\ In name (map snd clients)).
Proof.
  induction clients as [ | [get_price exchange_name] rest IH];
    intros w p name w' Hrun; simpl in Hrun.
  - inversion Hrun. now left.
  - unfold IO.bind in Hrun.
    destruct (get_price symbol w) as [[q | e] w1]; [ | discriminate].
    destruct (negb (is_error q) && Float.gtb (price q) Float.zero) eqn:Hacc.
    + inversion Hrun; subst. right.
      apply andb_true_iff in Hacc. split; [tauto | now left].
    + destruct (IH w1 p name w' Hrun) as [Hnone | [Hgt Hin]].
      * now left.
      * right. split; [exact Hgt | now right].
Qed.

(** X9. A price the resolver returns is either 0.0, with the label
    ["No valid price found"], or above zero, with the name of one of the
    four exchanges: it is never negative and never NaN. *)
Theorem resolved_price_is_zero_or_positive (symbol : string) (w w' : world)
    (p : Float.float) (name : string) :
  get_first_valid_price symbol w = (Ok (p, name), w') ->
  (p = Float.zero /\ name = "No valid price found")
  \/ (Float.gtb p Float.zero = true
      /\ In name ["Upbit"; "Bithumb"; "Coinone"; "Coingecko"]).
Proof.
  intros Hrun.
  exact (first_valid_price_result symbol exchanges w p name w' Hrun).
Qed.

Lemma first_valid_price_world (symbol : string) clients (urls : list (string * string)) :
  Forall2 (fun client entry =>
             forall w,
               snd (fst client symbol w)
               = World (requested w ++ [snd entry]) (printed w))
    clients urls ->
  forall w,
    exists k,
      (k <= List.length urls)%nat
      /\ (clients <> [] -> (1 <= k)%nat)
      /\ snd (first_valid_price clients symbol w)
         = World (requested w ++ firstn k (map snd urls)) (printed w).
Proof.
  intros Hall. induction Hall as [ | [get_price name] entry rest urls Hc _ IH];
    intros w.
  - exists 0%nat. split; [auto | split; [congruence | ]].
    simpl. rewrite app_nil_r. now destruct w.
  - simpl fst in Hc. specialize (Hc w).
    simpl first_valid_price. unfold IO.bind.
    destruct (get_price symbol w) as [[q | e] w1]; simpl in Hc; subst w1.
    + destruct (negb (is_error q) && Float.gtb (price q) Float.zero).
      * exists 1%nat. simpl. split; [lia | split; [lia | reflexivity]].
      * destruct (IH (World (requested w ++ [snd entry]) (printed w)))
          as [k [Hk [_ Hw]]].
        exists (S k). simpl. split; [lia | split; [lia | ]].
        rewrite Hw. simpl. now rewrite <- app_assoc.
    + exists 1%nat. simpl. split; [lia | split; [lia | reflexivity]].
Qed.

(** X10. For a symbol other than the quote currency, the resolver requests
    the URLs of Upbit, Bithumb, Coinone and Coingecko in this order, each
    at most once, stopping after one of them: between one and four
    requests, also when a client raises; and it prints nothing. *)
Theorem resolver_requests_in_priority_order (symbol : string) (w : world) :
  Str.lower symbol <> "krw" ->
  exists k,
    (1 <= k <= 4)%nat
    /\ snd (get_first_valid_price symbol w)
       = World (requested w
                ++ firstn k [ Vocab.upbit_url symbol; Vocab.bithumb_url symbol;
                              Vocab.coinone_url symbol;
                              Vocab.coingecko_url symbol ])
           (printed w).
Proof.
  intros Hkrw.
  destruct (first_valid_price_world symbol exchanges (Vocab.client_urls symbol)
              (clients_worlds symbol Hkrw) w) as [k [Hk [Hpos Hw]]].
  exists k. split.
  - split; [apply Hpos; discriminate | exact Hk].
  - exact Hw.
Qed.

(** X11. An exception of a client ends the resolution: when the clients
    before it return quotes that are not usable and it raises, the
    resolver raises the same exception in the world that client left, and
    no later client is called. *)
Theorem exception_ends_resolution (symbol : string) before get_price
    (name : string) after (e : exn) (w w1 w2 : world) :
  exchanges = before ++ (get_price, name) :: after ->
  Spec.probed symbol (fun q => ~ Spec.usable q) before w w1 ->
  get_price symbol w1 = (Raise e, w2) ->
  get_first_valid_price symbol w = (Raise e, w2)
  /\ forall later,
       first_valid_price (before ++ (get_price, name) :: later) symbol w
       = (Raise e, w2).
Proof.
  intros Hsplit Hbefore Hraise.
  assert (forall later,
             first_valid_price (before ++ (get_price, name) :: later) symbol w
             = (Raise e, w2)) as Hany.
  { intros later. rewrite (first_valid_price_skips symbol before _ w w1 Hbefore).
    simpl. unfold IO.bind. now rewrite Hraise. }
  split; [ | exact Hany].
  unfold get_first_valid_price. rewrite Hsplit. apply Hany.
Qed.

(** X12. For the quote currency the resolver returns the price 1.0 under
    the name of Upbit, the first client, and requests nothing. *)
Theorem quote_currency_resolves_to_one (symbol : string) (w : world) :
  Str.lower symbol = "krw" ->
  get_first_valid_price symbol w = (Ok (Float.one, "Upbit"), w).
Proof.
  intros Hkrw. unfold get_first_valid_price, exchanges. simpl.
  unfold IO.bind, PriceAPI.get_upbit_price. rewrite Hkrw. reflexivity.
Qed.

End ResolverMore.

(** ** More on loading the holdings *)

Section HoldingsMore.

Context `{PyRuntime}.

Import PortfolioManager.

Lemma load_holdings_spec (environ : list (string * string)) (w : world) :
  load_holdings environ w
  = (Ok (Spec.loaded environ),
     World (requested w) (printed w ++ Spec.warnings environ)).
Proof. unfold load_holdings. now rewrite load_holdings_loop_spec. Qed.

Lemma loaded_app (e1 e2 : list (string * string)) :
  Spec.loaded (e1 ++ e2) = Spec.loaded e1 ++ Spec.loaded e2.
Proof.
  induction e1 as [ | [key value] e1 IH]; simpl.
  - reflexivity.
  - destruct (Str.startswith key "CRYPTO_"); [ | exact IH].
    destruct (float_of_str value); simpl; now rewrite IH.
Qed.

Lemma warnings_app (e1 e2 : list (string * string)) :
  Spec.warnings (e1 ++ e2) = Spec.warnings e1 ++ Spec.warnings e2.
Proof.
  induction e1 as [ | [key value] e1 IH]; simpl.
  - reflexivity.
  - destruct (Str.startswith key "CRYPTO_"); [ | exact IH].
    destruct (float_of_str value); simpl; now rewrite IH.
Qed.

Lemma lower_char_symbol_char (c : ascii) :
  Ascii.eqb c "_" = false -> Vocab.symbol_char (Str.lower_char c) = true.
Proof.
  destruct c as [[] [] [] [] [] [] [] []]; intros Hc;
    try reflexivity; discriminate Hc.
Qed.

Lemma lower_until_symbol_chars (s : string) :
  Vocab.all_chars Vocab.symbol_char (Str.lower (Str.until "_" s)) = true.
Proof.
  induction s as [ | c s IH]; simpl.
  - reflexivity.
  - destruct (Ascii.eqb c "_") eqn:Hc; simpl.
    + reflexivity.
    + now rewrite (lower_char_symbol_char c Hc), IH.
Qed.

Lemma loaded_symbols (environ : list (string * string)) :
  Forall (fun h => Vocab.all_chars Vocab.symbol_char (symbol h) = true)
    (Spec.loaded environ).
Proof.
  induction environ as [ | [key value] environ IH]; simpl.
  - constructor.
  - destruct (Str.startswith key "CRYPTO_"); [ | exact IH].
    destruct (float_of_str value); [ | exact IH].
    constructor; [ | exact IH]. simpl.
    unfold Spec.between_underscores.
    destruct (Str.after "_" key); [apply lower_until_symbol_chars | reflexivity].
Qed.

(** X13. The symbol of every holding loaded has no upper-case letter and
    no underscore. *)
Theorem loaded_symbols_are_lower_case (environ : list (string * string))
    (w w' : world) (holdings : list CryptoHolding) :
  load_holdings environ w = (Ok holdings, w') ->
  Forall (fun h =>
            Vocab.all_chars Vocab.symbol_char (symbol h) = true)
    holdings.
Proof.
  rewrite load_holdings_spec. intros Hrun. inversion Hrun; subst.
  apply loaded_symbols.
Qed.

(** X14. Loading an environment made of two parts is loading the first
    part and then the second: the holdings of the first come first, and
    the order of the variables is kept. *)
Theorem load_holdings_in_two_parts (e1 e2 : list (string * string))
    (w w1 w2 : world) (h1 h2 : list CryptoHolding) :
  load_holdings e1 w = (Ok h1, w1) ->
  load_holdings e2 w1 = (Ok h2, w2) ->
  load_holdings (e1 ++ e2) w = (Ok (h1 ++ h2), w2).
Proof.
  rewrite !load_holdings_spec. intros H1 H2.
  inversion H1; subst; clear H1. inversion H2; subst; clear H2.
  simpl. rewrite loaded_app, warnings_app, app_assoc. reflexivity.
Qed.

Lemma loaded_or_warned (environ : list (string * string)) :
  (List.length (Spec.loaded environ) + List.length (Spec.warnings environ)
   = List.length (Vocab.crypto_vars environ))%nat.
Proof.
  induction environ as [ | [key value] environ IH]; simpl.
  - reflexivity.
  - destruct (Str.startswith key "CRYPTO_"); [ | exact IH].
    destruct (float_of_str value); simpl; lia.
Qed.

(** X15. [load_holdings] requests nothing, and every variable whose name
    starts with [CRYPTO_] gives either one holding or one printed warning:
    the holdings and the new lines together are as many as those
    variables, so two variables with the same symbol give two holdings. *)
Theorem one_holding_or_one_warning (environ : list (string * string))
    (w w' : world) (holdings : list CryptoHolding) :
  load_holdings environ w = (Ok holdings, w') ->
  requested w' = requested w
  /\ exists lines,
       printed w' = printed w ++ lines
       /\ (List.length holdings + List.length lines
           = List.length (Vocab.crypto_vars environ))%nat.
Proof.
  rewrite load_holdings_spec. intros Hrun. inversion Hrun; subst. simpl.
  split; [reflexivity | ].
  exists (Spec.warnings environ). split; [reflexivity | apply loaded_or_warned].
Qed.

Lemma loaded_crypto_vars (environ : list (string * string)) :
  Spec.loaded (Vocab.crypto_vars environ) = Spec.loaded environ
  /\ Spec.warnings (Vocab.crypto_vars environ) = Spec.warnings environ.
Proof.
  induction environ as [ | [key value] environ [IH1 IH2]]; simpl.
  - split; reflexivity.
  - destruct (Str.startswith key "CRYPTO_") eqn:Hp; simpl.
    + rewrite Hp. destruct (float_of_str value); split; congruence.
    + split; assumption.
Qed.

(** X16. The variables whose name does not start with [CRYPTO_] play no
    part: loading an environment and loading its [CRYPTO_] variables alone
    give the same holdings and the same warnings. *)
Theorem other_variables_are_ignored (environ : list (string * string))
    (w : world) :
  load_holdings environ w = load_holdings (Vocab.crypto_vars environ) w.
Proof.
  rewrite !load_holdings_spec.
  destruct (loaded_crypto_vars environ) as [-> ->]. reflexivity.
Qed.

End HoldingsMore.

(** ** More on the report *)

Section ReportMore.

Context `{PyRuntime}.

Import PortfolioManager.

Lemma calculate_portfolio_inv (t : string) (holdings : list CryptoHolding)
    (w w' : world) (report : list Row) :
  calculate_portfolio t holdings w = (Ok report, w') ->
  holdings <> []
  /\ exists founds,
       Spec.resolve_all holdings w = (Ok founds, w')
       /\ report
          = Pandas.nargsort_descending (Spec.holding_rows t holdings founds)
            ++ [total_row t (Spec.float_sum (Spec.holding_rows t holdings founds))].
Proof.
  intros Hrun.
  destruct holdings as [ | h rest]; [discriminate Hrun | ].
  split; [discriminate | ].
  destruct (Spec.resolve_all (h :: rest) w) as [[founds | e] w1] eqn:Hres.
  - rewrite (calculate_portfolio_returns t (h :: rest) w w1 founds) in Hrun;
      [ | discriminate | exact Hres].
    inversion Hrun; subst. exists founds. split; reflexivity.
  - unfold calculate_portfolio, IO.bind at 1 in Hrun.
    rewrite portfolio_loop_spec, Hres in Hrun. discriminate Hrun.
Qed.



(** X18. A report is built exactly when there is at least one holding and
    every resolution returns: without holdings, or when a resolution
    raises, [calculate_portfolio] raises. *)
Theorem report_is_built_exactly_when (t : string)
    (holdings : list CryptoHolding) (w : world) :
  (exists report w', calculate_portfolio t holdings w = (Ok report, w'))
  <-> (holdings <> []
       /\ exists founds w', Spec.resolve_all holdings w = (Ok founds, w')).
Proof.
  split.
  - intros [report [w' Hrun]].
    destruct (calculate_portfolio_inv t holdings w w' report Hrun)
      as [Hne [founds [Hres _]]].
    split; [exact Hne | ]. now exists founds, w'.
  - intros [Hne [founds [w' Hres]]].
    eexists. exists w'. now apply calculate_portfolio_returns with (founds := founds).
Qed.

Lemma resolve_all_raise (before : list CryptoHolding) :
  forall w founds w1 h after e w2,
    Spec.resolve_all before w = (Ok founds, w1) ->
    get_first_valid_price (symbol h) w1 = (Raise e, w2) ->
    Spec.resolve_all (before ++ h :: after) w = (Raise e, w2).
Proof.
  induction before as [ | b before IH]; intros w founds w1 h after e w2 Hb Hh.
  - simpl in Hb. inversion Hb; subst. simpl. unfold IO.bind. now rewrite Hh.
  - simpl in *. unfold IO.bind in *.
    destruct (get_first_valid_price (symbol b) w) as [[found | e'] w0];
      [ | discriminate].
    destruct (Spec.resolve_all before w0) as [[others | e'] w3] eqn:Hrest;
      [ | discriminate].
    inversion Hb; subst.
    now rewrite (IH w0 others w1 h after e w2 Hrest Hh).
Qed.

(** X19. An exception of a resolution ends the report: when the holdings
    before one resolve and the resolution of this one raises,
    [calculate_portfolio] raises the same exception in the world that
    resolution left; no row is returned and no later holding is
    resolved. *)
Theorem exception_ends_report (t : string) (before : list CryptoHolding)
    (h : CryptoHolding) (after : list CryptoHolding)
    (founds : list (Float.float * string)) (e : exn) (w w1 w2 : world) :
  Spec.resolve_all before w = (Ok founds, w1) ->
  get_first_valid_price (symbol h) w1 = (Raise e, w2) ->
  calculate_portfolio t (before ++ h :: after) w = (Raise e, w2).
Proof.
  intros Hb Hh.
  pose proof (resolve_all_raise before w founds w1 h after e w2 Hb Hh) as Hres.
  unfold calculate_portfolio, IO.bind at 1.
  now rewrite portfolio_loop_spec, Hres.
Qed.

Lemma resolver_world (symbol : string) (w : world) :
  exists urls,
    (List.length urls <= 4)%nat
    /\ snd (get_first_valid_price symbol w)
       = World (requested w ++ urls) (printed w).
Proof.
  destruct (String.eqb_spec (Str.lower symbol) "krw") as [Hkrw | Hkrw].
  - exists []. split; [simpl; lia | ].
    unfold get_first_valid_price, exchanges. simpl.
    unfold IO.bind, PriceAPI.get_upbit_price. rewrite Hkrw. simpl.
    rewrite app_nil_r. now destruct w.
  - destruct (first_valid_price_world symbol exchanges
                (Vocab.client_urls symbol) (clients_worlds symbol Hkrw) w)
      as [k [Hk [_ Hw]]].
    exists (firstn k (map snd (Vocab.client_urls symbol))).
    split; [ | exact Hw].
    rewrite length_firstn. simpl in *. lia.
Qed.

Lemma portfolio_loop_world (t : string) (holdings : list CryptoHolding) :
  forall data total w,
    exists urls,
      (List.length urls <= 4 * List.length holdings)%nat
      /\ snd (portfolio_loop t holdings data total w)
         = World (requested w ++ urls) (printed w).
Proof.
  induction holdings as [ | h rest IH]; intros data total w.
  - exists []. split; [simpl; lia | ]. simpl. rewrite app_nil_r. now destruct w.
  - destruct (resolver_world (symbol h) w) as [urls [Hlen Hw]].
    simpl portfolio_loop. unfold IO.bind.
    destruct (get_first_valid_price (symbol h) w) as [[[p x] | e] w1];
      simpl in Hw; subst w1.
    + match goal with
      | |- context [ portfolio_loop t rest ?d ?v ?w1 ] =>
          destruct (IH d v w1) as [urls' [Hlen' Hw']]
      end.
      exists (urls ++ urls'). split.
      * rewrite length_app. simpl List.length. lia.
      * rewrite Hw'. simpl. now rewrite app_assoc.
    + exists urls. split; [simpl List.length; lia | reflexivity].
Qed.

Lemma calculate_portfolio_world (t : string) (holdings : list CryptoHolding)
    (w : world) :
  exists urls,
    (List.length urls <= 4 * List.length holdings)%nat
    /\ snd (calculate_portfolio t holdings w)
       = World (requested w ++ urls) (printed w).
Proof.
  destruct (portfolio_loop_world t holdings [] Float.zero w)
    as [urls [Hlen Hw]].
  exists urls. split; [exact Hlen | ].
  unfold calculate_portfolio, IO.bind, IO.lift, IO.ret.
  destruct (portfolio_loop t holdings [] Float.zero w) as [[[data total] | e] w1];
    simpl in Hw; subst w1; [ | reflexivity].
  destruct (Pandas.sort_values_descending data); reflexivity.
Qed.

(** X20. [calculate_portfolio] prints nothing and makes at most four
    requests for each holding, whether it returns a report or raises. *)
Theorem report_requests_at_most_four_per_holding (t : string)
    (holdings : list CryptoHolding) (w : world) :
  exists urls,
    (List.length urls <= 4 * List.length holdings)%nat
    /\ snd (calculate_portfolio t holdings w)
       = World (requested w ++ urls) (printed w).
Proof. apply calculate_portfolio_world. Qed.




End ReportMore.

(** ** The program *)

Section MainProgram.

Context `{PyRuntime}.
Variable frame_str : list Row -> string.

Import PortfolioManager.

Lemma report_prints_nothing (t : string) (holdings : list CryptoHolding)
    (w w' : world) (result : outcome (list Row)) :
  calculate_portfolio t holdings w = (result, w') ->
  printed w' = printed w.
Proof.
  intros Hrun.
  destruct (calculate_portfolio_world t holdings w) as [urls [_ Hw]].
  rewrite Hrun in Hw. simpl in Hw. now subst w'.
Qed.

(** X22. When the report cannot be built, [main] raises the exception of
    [calculate_portfolio] and prints neither the header nor a frame: the
    printed lines are those left by the loading of the holdings. *)
Theorem main_raises_when_report_fails (environ : list (string * string))
    (t : string) (holdings : list CryptoHolding) (e : exn) (w w1 w2 : world) :
  load_holdings environ w = (Ok holdings, w1) ->
  calculate_portfolio t holdings w1 = (Raise e, w2) ->
  Program.main frame_str environ t w = (Raise e, w2)
  /\ printed w2 = printed w1.
Proof.
  intros Hload Hcalc. split.
  - unfold Program.main, Program.__init__, IO.bind.
    now rewrite Hload, Hcalc.
  - exact (report_prints_nothing t holdings w1 w2 _ Hcalc).
Qed.

(** X23. When the report is built, [main] returns having printed, after
    the lines left by the loading of the holdings, the header and then the
    frame, and nothing else. *)
Theorem main_prints_header_then_frame (environ : list (string * string))
    (t : string) (holdings : list CryptoHolding) (report : list Row)
    (w w1 w2 : world) :
  load_holdings environ w = (Ok holdings, w1) ->
  calculate_portfolio t holdings w1 = (Ok report, w2) ->
  Program.main frame_str environ t w
  = (Ok tt,
     World (requested w2)
       (printed w1 ++ ["[ Cryptocurrency Portfolio ]"; frame_str report])).
Proof.
  intros Hload Hcalc.
  pose proof (report_prints_nothing t holdings w1 w2 _ Hcalc) as Hprinted.
  unfold Program.main, Program.__init__, IO.bind, IO.print.
  rewrite Hload, Hcalc. simpl. rewrite Hprinted, <- app_assoc. reflexivity.
Qed.

(** X24. When no holding is loaded (no variable named [CRYPTO_...], or
    none with a value [float] accepts), [main] raises [KeyError] as soon
    as the holdings are loaded: it requests nothing and prints neither the
    header nor a frame. *)
Theorem main_without_holdings_raises (environ : list (string * string))
    (t : string) (w w1 : world) :
  load_holdings environ w = (Ok [], w1) ->
  Program.main frame_str environ t w = (Raise KeyError, w1)
  /\ requested w1 = requested w.
Proof.
  intros Hload. split.
  - unfold Program.main, Program.__init__, IO.bind. now rewrite Hload.
  - rewrite load_holdings_spec in Hload. inversion Hload; subst. reflexivity.
Qed.

End MainProgram.

(** ** The further properties on examples *)

Section MoreExamples.

Import PortfolioManager.

Lemma client_requests_its_url_once_witness :
  exists url,
    In ("Bithumb", url) (Vocab.client_urls "btc")
    /\ snd (@PriceAPI.get_bithumb_price Demo.offline "btc" Demo.start)
       = World [url] [].
Proof.
  apply (@client_requests_its_url_once Demo.offline
           (@PriceAPI.get_bithumb_price Demo.offline) "Bithumb" "btc" Demo.start).
  - simpl. auto.
  - discriminate.
Defined.

Lemma string_body_becomes_the_error_witness :
  exists w',
    @PriceAPI.get_coingecko_price (Demo.always (PyStr "maintenance")) "btc"
      Demo.start
    = (Ok (mkExchangePrice "Coingecko" Float.zero (Some "maintenance")), w').
Proof.
  apply (@string_body_becomes_the_error (Demo.always (PyStr "maintenance"))
           (@PriceAPI.get_coingecko_price (Demo.always (PyStr "maintenance")))
           "Coingecko" "btc" "maintenance" Demo.start).
  - simpl. auto.
  - discriminate.
  - reflexivity.
Defined.

Lemma upbit_falsy_body_is_empty_response_witness :
  exists w',
    @PriceAPI.get_upbit_price (Demo.always (PyList [])) "btc" Demo.start
    = (Ok (mkExchangePrice "Upbit" Float.zero
             (Some "Error: Empty response from API")), w').
Proof.
  apply (@upbit_falsy_body_is_empty_response (Demo.always (PyList []))
           "btc" Demo.start (PyList [])).
  - discriminate.
  - reflexivity.
  - reflexivity.
  - discriminate.
Defined.

Lemma bithumb_status_is_reported_witness :
  exists w',
    @PriceAPI.get_bithumb_price
      (Demo.always (PyDict [("status", PyStr "5500")])) "btc" Demo.start
    = (Ok (mkExchangePrice "Bithumb" Float.zero
             (Some "Error: API returned status 5500")), w').
Proof.
  apply (@bithumb_status_is_reported
           (Demo.always (PyDict [("status", PyStr "5500")]))
           "btc" Demo.start [("status", PyStr "5500")]).
  - discriminate.
  - reflexivity.
  - discriminate.
Defined.

Lemma coinone_error_code_is_reported_witness :
  exists w',
    @PriceAPI.get_coinone_price (Demo.always (PyDict [])) "btc" Demo.start
    = (Ok (mkExchangePrice "Coinone" Float.zero
             (Some "Error: API returned errorCode None")), w').
Proof.
  apply (@coinone_error_code_is_reported (Demo.always (PyDict []))
           "btc" Demo.start []).
  - discriminate.
  - reflexivity.
  - discriminate.
Defined.

Lemma convertible_price_is_returned_witness :
  exists w',
    @PriceAPI.get_coinone_price
      (Demo.always (PyDict [("errorCode", PyStr "0"); ("last", PyStr "-5")]))
      "btc" Demo.start
    = (Ok (mkExchangePrice "Coinone" (SFopp (Float.of_Z 5)) None), w').
Proof.
  apply (@convertible_price_is_returned
           (Demo.always (PyDict [("errorCode", PyStr "0"); ("last", PyStr "-5")]))
           (@PriceAPI.get_coinone_price
              (Demo.always
                 (PyDict [("errorCode", PyStr "0"); ("last", PyStr "-5")])))
           "Coinone" "btc" Demo.start
           (PyDict [("errorCode", PyStr "0"); ("last", PyStr "-5")])
           (PyStr "-5")).
  - simpl. auto.
  - discriminate.
  - reflexivity.
  - apply (@Spec.field_coinone "btc"
             [("errorCode", PyStr "0"); ("last", PyStr "-5")]).
    reflexivity.
  - reflexivity.
Defined.

Lemma overflow_leaves_the_client_witness :
  exists w',
    @PriceAPI.get_upbit_price
      (Demo.always (PyList [PyDict [("trade_price", PyInt (2 ^ 1024))]]))
      "btc" Demo.start
    = (Raise OverflowError, w').
Proof.
  refine (proj1 (@overflow_leaves_the_client
                   (Demo.always
                      (PyList [PyDict [("trade_price", PyInt (2 ^ 1024))]]))
                   (@PriceAPI.get_upbit_price
                      (Demo.always
                         (PyList [PyDict [("trade_price", PyInt (2 ^ 1024))]])))
                   "Upbit" "btc" Demo.start
                   (PyList [PyDict [("trade_price", PyInt (2 ^ 1024))]])
                   (PyInt (2 ^ 1024)) OverflowError _ _ _ _ _) eq_refl).
  - simpl. auto.
  - discriminate.
  - reflexivity.
  - apply (@Spec.field_upbit "btc" [("trade_price", PyInt (2 ^ 1024))] []).
  - vm_compute. reflexivity.
Defined.

Lemma upbit_ignores_case_witness :
  @PriceAPI.get_upbit_price Demo.offline "Btc" Demo.start
  = @PriceAPI.get_upbit_price Demo.offline "bTC" Demo.start.
Proof.
  apply (@upbit_ignores_case Demo.offline "Btc" "bTC" Demo.start);
    reflexivity.
Defined.

Lemma resolved_price_is_zero_or_positive_witness :
  (Float.of_Z 50000000 = Float.zero /\ "Bithumb" = "No valid price found")
  \/ (Float.gtb (Float.of_Z 50000000) Float.zero = true
      /\ In "Bithumb" ["Upbit"; "Bithumb"; "Coinone"; "Coingecko"]).
Proof.
  apply (@resolved_price_is_zero_or_positive Demo.bithumb_only "btc" Demo.start
           (World [ "https://api.upbit.com/v1/ticker?markets=KRW-BTC";
                    "https://api.bithumb.com/public/ticker/btc_KRW" ] [])).
  vm_compute. reflexivity.
Defined.

Lemma resolver_requests_in_priority_order_witness :
  exists k,
    (1 <= k <= 4)%nat
    /\ snd (@get_first_valid_price Demo.bithumb_only "btc" Demo.start)
       = World ([] ++ firstn k [ Vocab.upbit_url "btc"; Vocab.bithumb_url "btc";
                                 Vocab.coinone_url "btc";
                                 Vocab.coingecko_url "btc" ]) [].
Proof.
  apply (@resolver_requests_in_priority_order Demo.bithumb_only "btc" Demo.start).
  discriminate.
Defined.

Lemma exception_ends_resolution_witness :
  @get_first_valid_price (Demo.always (PyDict [("error", PyNone)])) "btc"
    Demo.start
  = (Raise KeyError,
     World ["https://api.upbit.com/v1/ticker?markets=KRW-BTC"] []).
Proof.
  refine (proj1
    (@exception_ends_resolution (Demo.always (PyDict [("error", PyNone)]))
       "btc" []
       (@PriceAPI.get_upbit_price (Demo.always (PyDict [("error", PyNone)])))
       "Upbit"
       [ (@PriceAPI.get_bithumb_price (Demo.always (PyDict [("error", PyNone)])),
          "Bithumb");
         (@PriceAPI.get_coinone_price (Demo.always (PyDict [("error", PyNone)])),
          "Coinone");
         (@PriceAPI.get_coingecko_price (Demo.always (PyDict [("error", PyNone)])),
          "Coingecko") ]
       KeyError Demo.start Demo.start _ eq_refl _ eq_refl)).
  apply Spec.probed_nil.
Defined.

Lemma quote_currency_resolves_to_one_witness :
  @get_first_valid_price Demo.offline "KRW" Demo.start
  = (Ok (Float.one, "Upbit"), Demo.start).
Proof.
  apply (@quote_currency_resolves_to_one Demo.offline "KRW" Demo.start).
  reflexivity.
Defined.

Lemma loaded_symbols_are_lower_case_witness :
  Forall (fun h => Vocab.all_chars Vocab.symbol_char (symbol h) = true)
    [mkCryptoHolding "usd" (Float.of_Z 3)].
Proof.
  apply (@loaded_symbols_are_lower_case Demo.offline
           [("CRYPTO_USD_COIN", "3")] Demo.start Demo.start).
  reflexivity.
Defined.

Lemma load_holdings_in_two_parts_witness :
  @load_holdings Demo.offline
    ([("CRYPTO_BTC", "1"); ("CRYPTO_ETH", "x")] ++ [("CRYPTO_SOL", "2")])
    Demo.start
  = (Ok ([mkCryptoHolding "btc" (Float.of_Z 1)]
         ++ [mkCryptoHolding "sol" (Float.of_Z 2)]),
     World [] ["Warning: Invalid amount for eth: x"]).
Proof.
  apply (@load_holdings_in_two_parts Demo.offline
           [("CRYPTO_BTC", "1"); ("CRYPTO_ETH", "x")] [("CRYPTO_SOL", "2")]
           Demo.start (World [] ["Warning: Invalid amount for eth: x"])).
  - reflexivity.
  - reflexivity.
Defined.

Lemma one_holding_or_one_warning_witness :
  requested (World [] ["Warning: Invalid amount for eth: x"]) = requested Demo.start
  /\ exists lines,
       printed (World [] ["Warning: Invalid amount for eth: x"])
       = printed Demo.start ++ lines
       /\ (List.length [ mkCryptoHolding "btc" (Float.of_Z 1);
                         mkCryptoHolding "btc" (Float.of_Z 2) ]
           + List.length lines
           = List.length
               (Vocab.crypto_vars
                  [ ("CRYPTO_BTC_A", "1"); ("HOME", "/root");
                    ("CRYPTO_ETH", "x"); ("CRYPTO_BTC_B", "2") ]))%nat.
Proof.
  apply (@one_holding_or_one_warning Demo.offline
           [ ("CRYPTO_BTC_A", "1"); ("HOME", "/root");
             ("CRYPTO_ETH", "x"); ("CRYPTO_BTC_B", "2") ]
           Demo.start).
  reflexivity.
Defined.


Lemma exception_ends_report_witness :
  @calculate_portfolio (Demo.always (PyDict [("error", PyNone)]))
    "2025-01-01 00:00:00"
    ([Demo.krw Float.one] ++ mkCryptoHolding "btc" Float.one
                             :: [Demo.krw Float.one])
    Demo.start
  = (Raise KeyError,
     World ["https://api.upbit.com/v1/ticker?markets=KRW-BTC"] []).
Proof.
  apply (@exception_ends_report (Demo.always (PyDict [("error", PyNone)]))
           "2025-01-01 00:00:00" [Demo.krw Float.one]
           (mkCryptoHolding "btc" Float.one) [Demo.krw Float.one]
           [(Float.one, "Upbit")] KeyError Demo.start Demo.start).
  - reflexivity.
  - reflexivity.
Defined.


Lemma main_raises_when_report_fails_witness :
  @Program.main (Demo.always (PyDict [("error", PyNone)])) (fun _ => "frame")
    [("CRYPTO_BTC", "1")] "2025-01-01 00:00:00" Demo.start
  = (Raise KeyError,
     World ["https://api.upbit.com/v1/ticker?markets=KRW-BTC"] [])
  /\ printed (World ["https://api.upbit.com/v1/ticker?markets=KRW-BTC"] [])
     = printed Demo.start.
Proof.
  apply (@main_raises_when_report_fails
           (Demo.always (PyDict [("error", PyNone)])) (fun _ => "frame")
           [("CRYPTO_BTC", "1")] "2025-01-01 00:00:00"
           [mkCryptoHolding "btc" (Float.of_Z 1)] KeyError
           Demo.start Demo.start).
  - reflexivity.
  - reflexivity.
Defined.

Lemma main_prints_header_then_frame_witness :
  @Program.main Demo.offline (fun _ => "frame")
    [("CRYPTO_KRW", "5"); ("CRYPTO_ETH", "x")] "2025-01-01 00:00:00" Demo.start
  = (Ok tt,
     World []
       ([ "Warning: Invalid amount for eth: x" ]
        ++ [ "[ Cryptocurrency Portfolio ]"; "frame" ])).
Proof.
  apply (@main_prints_header_then_frame Demo.offline (fun _ => "frame")
           [("CRYPTO_KRW", "5"); ("CRYPTO_ETH", "x")] "2025-01-01 00:00:00"
           [mkCryptoHolding "krw" (Float.of_Z 5)]
           [ mkRow "2025-01-01 00:00:00" "KRW" (Some (Float.of_Z 5))
               (Some Float.one) (Some "Upbit") (Float.of_Z 5);
             total_row "2025-01-01 00:00:00" (Float.of_Z 5) ]
           Demo.start
           (World [] ["Warning: Invalid amount for eth: x"])
           (World [] ["Warning: Invalid amount for eth: x"])).
  - reflexivity.
  - vm_compute. reflexivity.
Defined.

Lemma main_without_holdings_raises_witness :
  @Program.main Demo.offline (fun _ => "frame")
    [("HOME", "/root"); ("CRYPTO_ETH", "x")] "2025-01-01 00:00:00" Demo.start
  = (Raise KeyError, World [] ["Warning: Invalid amount for eth: x"])
  /\ requested (World [] ["Warning: Invalid amount for eth: x"])
     = requested Demo.start.
Proof.
  apply (@main_without_holdings_raises Demo.offline (fun _ => "frame")
           [("HOME", "/root"); ("CRYPTO_ETH", "x")] "2025-01-01 00:00:00"
           Demo.start (World [] ["Warning: Invalid amount for eth: x"])).
  reflexivity.
Defined.

End MoreExamples.
